(** * wasm/debug_server.py: the static debug server

    A shallow embedding of [RequestHandler.do_GET] and [run_server], with
    the part of the operating system the handler talks to (a directory
    tree, path resolution with its limits, [os.path.exists] and [open])
    and the part of the library it calls ([urlparse] as far as it can
    raise, [send_response] with the headers it adds).

    The handler is a straight-line program over the calls it makes on the
    [BaseHTTPRequestHandler] API and on the operating system; it is kept
    as a tree of calls ([prog]) and given meaning by an interpreter that
    threads the process state and the log of calls made so far, and lets
    the environment change the filesystem between two calls. *)

From Stdlib Require Import List Bool NArith Lia.
From Stdlib.Strings Require Import String Ascii Byte.
Import ListNotations.
Local Open Scope string_scope.
Local Open Scope list_scope.

Set Implicit Arguments.
Set Warnings "-register-all".

(** ** Bytes *)

Definition bytes := list byte.

(** A bytes literal [b'...'] whose characters are all ASCII. *)
Definition b (s : string) : bytes := list_byte_of_string s.

(** ** The filesystem the process sees *)

Module Fs.

(** What a failed system call reports. *)
Inductive errno := ENOENT | ENOTDIR | EISDIR | EACCES | ENAMETOOLONG.

(** The number of bytes of a path once Python has encoded it for the
    operating system (UTF-8): one for a character below 128, two for the
    others. *)
Fixpoint fsencode_length (s : string) : N :=
  match s with
  | EmptyString => 0%N
  | String c rest =>
      ((if N.leb 128 (N_of_ascii c) then 2 else 1) + fsencode_length rest)%N
  end.

(** The longest name of an entry, and the length from which on a path is
    refused, in bytes (Linux). *)
Definition NAME_MAX : N := 255.
Definition PATH_MAX : N := 4096.

(** A filesystem entry: a regular file with its read permission for the
    process and its contents, or a directory with its named entries.
    Symbolic links and directory search permissions are not modelled. *)
Inductive node :=
| File (readable : bool) (data : bytes)
| Dir (entries : list (string * node)).

(** The directory tree and the working directory of the process, as the
    names leading to it from the root of the tree. *)
Record filesystem := { root : node; cwd : list string }.

(** The entry of a directory under a name; there is none under a name
    longer than [NAME_MAX]. *)
Fixpoint assoc (name : string) (es : list (string * node)) : option node :=
  match es with
  | [] => None
  | (n, x) :: rest =>
      if String.eqb n name && N.leb (fsencode_length name) NAME_MAX
      then Some x else assoc name rest
  end.

(** The entry at an absolute location given as a list of names. *)
Fixpoint get (n : node) (names : list string) : option node :=
  match names with
  | [] => Some n
  | x :: rest =>
      match n with
      | Dir es => match assoc x es with
                  | Some c => get c rest
                  | None => None
                  end
      | File _ _ => None
      end
  end.

(** [split_acc] cuts a path at every '/'; [acc] holds the characters
    of the current component, last one first. *)
Fixpoint rev_string (acc : list ascii) (s : string) : string :=
  match acc with
  | [] => s
  | c :: rest => rev_string rest (String c s)
  end.

Fixpoint split_acc (acc : list ascii) (s : string) : list string :=
  match s with
  | EmptyString => [rev_string acc EmptyString]
  | String c rest =>
      if Ascii.eqb c "/"%char
      then rev_string acc EmptyString :: split_acc [] rest
      else split_acc (c :: acc) rest
  end.

Definition components (path : string) : list string := split_acc [] path.

(** Path resolution, one component at a time.  [here] is the location
    reached so far, innermost name first.  Every component is looked up
    in a directory: an empty component or "." stays, ".." moves to the
    parent (the root is its own parent), a name moves into the entry of
    that name and is refused when longer than [NAME_MAX]. *)
Fixpoint walk (r : node) (here : list string) (comps : list string)
  : errno + list string :=
  match comps with
  | [] => inr here
  | c :: rest =>
      match get r (rev here) with
      | Some (Dir es) =>
          if String.eqb c "" || String.eqb c "." then walk r here rest
          else if String.eqb c ".." then walk r (tl here) rest
          else if N.ltb NAME_MAX (fsencode_length c) then inl ENAMETOOLONG
          else match assoc c es with
               | Some _ => walk r (c :: here) rest
               | None => inl ENOENT
               end
      | Some (File _ _) => inl ENOTDIR
      | None => inl ENOENT
      end
  end.

(** Where a path leads: the absolute location, outermost name first.
    A path of [PATH_MAX] bytes or more is refused. *)
Definition locate (fs : filesystem) (path : string) : errno + list string :=
  if String.eqb path "" then inl ENOENT
  else if N.leb PATH_MAX (fsencode_length path) then inl ENAMETOOLONG
  else
    let start := if String.prefix "/" path then [] else rev (cwd fs) in
    match walk (root fs) start (components path) with
    | inl e => inl e
    | inr here => inr (rev here)
    end.

(** What a path names (the [stat] system call). *)
Definition stat (fs : filesystem) (path : string) : errno + node :=
  match locate fs path with
  | inl e => inl e
  | inr loc => match get (root fs) loc with
               | Some n => inr n
               | None => inl ENOENT
               end
  end.

(** Replace, or create, the entry of a name in a directory listing. *)
Fixpoint set_entry (name : string) (x : node) (es : list (string * node))
  : list (string * node) :=
  match es with
  | [] => [(name, x)]
  | (n, y) :: rest =>
      if String.eqb n name then (n, x) :: rest
      else (n, y) :: set_entry name x rest
  end.

(** The tree with the entry at an absolute location replaced or created;
    the tree itself when the location cannot hold an entry. *)
Fixpoint put (n : node) (names : list string) (x : node) : node :=
  match names with
  | [] => x
  | name :: rest =>
      match n with
      | Dir es =>
          match rest, assoc name es with
          | [], _ => Dir (set_entry name x es)
          | _ :: _, Some c => Dir (set_entry name (put c rest x) es)
          | _ :: _, None => n
          end
      | File _ _ => n
      end
  end.

(** [os.path.exists]: whether [stat] succeeds on the path. *)
Definition os_path_exists (fs : filesystem) (path : string) : bool :=
  match stat fs path with
  | inr _ => true
  | inl _ => false
  end.

(** The modes of [open]: 'rb' reads an existing file, 'wb' creates the
    file or empties it. *)
Inductive mode := rb | wb.

Definition special (name : string) : bool :=
  String.eqb name "" || String.eqb name "." || String.eqb name "..".

(** The empty components at the front of a list. *)
Fixpoint drop_empty (comps : list string) : list string :=
  match comps with
  | c :: rest => if String.eqb c "" then drop_empty rest else comps
  | [] => []
  end.

(** Opening for writing a path that names nothing yet: the file is
    created in the directory the components before the last one lead to;
    a path that ends in a slash asks for a directory and is refused. *)
Definition create (fs : filesystem) (path : string) : errno + filesystem :=
  let comps := components path in
  let named := rev (drop_empty (rev comps)) in
  let slash := negb (Nat.eqb (List.length named) (List.length comps)) in
  let name := last named "" in
  let start := if String.prefix "/" path then [] else rev (cwd fs) in
  match walk (root fs) start (removelast named) with
  | inl e => inl e
  | inr here =>
      match get (root fs) (rev here) with
      | Some (Dir _) =>
          if slash || special name then inl EISDIR
          else if N.ltb NAME_MAX (fsencode_length name) then inl ENAMETOOLONG
          else inr {| root := put (root fs) (rev (name :: here)) (File true []);
                      cwd := cwd fs |}
      | Some (File _ _) => inl ENOTDIR
      | None => inl ENOENT
      end
  end.

(** The [open] system call followed by reading the whole file: the
    bytes read, or the error, and the filesystem afterwards. *)
Definition os_open (fs : filesystem) (path : string) (m : mode)
  : (errno + bytes) * filesystem :=
  match m with
  | rb =>
      match stat fs path with
      | inl e => (inl e, fs)
      | inr (Dir _) => (inl EISDIR, fs)
      | inr (File false _) => (inl EACCES, fs)
      | inr (File true data) => (inr data, fs)
      end
  | wb =>
      match locate fs path with
      | inr loc =>
          match get (root fs) loc with
          | Some (File r _) =>
              (inr [], {| root := put (root fs) loc (File r []); cwd := cwd fs |})
          | Some (Dir _) => (inl EISDIR, fs)
          | None => (inl ENOENT, fs)
          end
      | inl ENOENT =>
          match create fs path with
          | inl e => (inl e, fs)
          | inr fs' => (inr [], fs')
          end
      | inl e => (inl e, fs)
      end
  end.

End Fs.
Export Fs.

(** ** Exceptions and file objects *)

(** The exceptions [open] raises, which Python names by error number,
    and the one [urlparse] raises. *)
Inductive exn := OSError (e : errno) | ValueError.

Definition FileNotFoundError := OSError ENOENT.
Definition NotADirectoryError := OSError ENOTDIR.
Definition IsADirectoryError := OSError EISDIR.
Definition PermissionError := OSError EACCES.

(** A file object opened for reading; [read file] is [file.read()]. *)
Record file := { read : bytes }.

(** The result of [urllib.parse.urlparse]. *)
Record ParseResult := {
  scheme : string; netloc : string; path : string;
  params : string; query : string; fragment : string
}.

(** ** urllib.parse *)

(** What [urlparse] does with a str, as far as it decides whether the
    call returns or raises (CPython 3.11, [urlsplit]): leading control
    characters and spaces are stripped, tabs and line ends removed, a
    scheme is cut off, and when what is left starts with two slashes the
    text up to the next '/', '?' or '#' is the netloc, which is checked. *)
Module Urllib.

(** [url.lstrip(_WHATWG_C0_CONTROL_OR_SPACE)]. *)
Fixpoint lstrip (url : string) : string :=
  match url with
  | String c rest => if N.leb (N_of_ascii c) 32 then lstrip rest else url
  | EmptyString => url
  end.

(** The characters of [_UNSAFE_URL_BYTES_TO_REMOVE]: tab, carriage return
    and line feed. *)
Definition unsafe (c : ascii) : bool :=
  N.eqb (N_of_ascii c) 9 || N.eqb (N_of_ascii c) 13 || N.eqb (N_of_ascii c) 10.

Fixpoint remove_unsafe (url : string) : string :=
  match url with
  | String c rest =>
      if unsafe c then remove_unsafe rest else String c (remove_unsafe rest)
  | EmptyString => EmptyString
  end.

(** [c.isascii() and c.isalpha()]. *)
Definition is_alpha (c : ascii) : bool :=
  let n := N_of_ascii c in
  N.leb 65 n && N.leb n 90 || N.leb 97 n && N.leb n 122.

Definition is_digit (c : ascii) : bool :=
  let n := N_of_ascii c in N.leb 48 n && N.leb n 57.

(** [c in scheme_chars]: a letter, a digit, or one of "+-.". *)
Definition scheme_char (c : ascii) : bool :=
  is_alpha c || is_digit c
  || Ascii.eqb c "+" || Ascii.eqb c "-" || Ascii.eqb c ".".

Fixpoint all_chars (f : ascii -> bool) (s : string) : bool :=
  match s with
  | String c rest => f c && all_chars f rest
  | EmptyString => true
  end.

Fixpoint has_char (x : ascii) (s : string) : bool :=
  match s with
  | String c rest => Ascii.eqb c x || has_char x rest
  | EmptyString => false
  end.

(** The text before the first ':' and the text after it, when there is
    one: [url[:i]] and [url[i+1:]] for [i = url.find(':')]. *)
Fixpoint at_colon (url : string) : option (string * string) :=
  match url with
  | String c rest =>
      if Ascii.eqb c ":" then Some (EmptyString, rest)
      else match at_colon rest with
           | Some (before, after) => Some (String c before, after)
           | None => None
           end
  | EmptyString => None
  end.

(** The url without its scheme: a scheme is there when the first ':' is
    not at the front, the url starts with a letter, and all that comes
    before the ':' is scheme characters. *)
Definition without_scheme (url : string) : string :=
  match at_colon url with
  | Some (String c before, after) =>
      if is_alpha c && all_chars scheme_char (String c before)
      then after else url
  | _ => url
  end.

(** [_splitnetloc(url, 2)]: the text up to the first '/', '?' or '#'. *)
Fixpoint netloc_of (rest : string) : string :=
  match rest with
  | String c more =>
      if Ascii.eqb c "/" || Ascii.eqb c "?" || Ascii.eqb c "#"
      then EmptyString else String c (netloc_of more)
  | EmptyString => EmptyString
  end.

(** One square bracket without the other: "Invalid IPv6 URL". *)
Definition unbalanced (netloc : string) : bool :=
  has_char "[" netloc && negb (has_char "]" netloc)
  || has_char "]" netloc && negb (has_char "[" netloc).

End Urllib.

(** What the library decides that is not modelled here: whether its
    further checks of a netloc with balanced brackets pass (the address
    between the brackets, the characters after normalisation), and the
    result [urlparse] returns when it returns. *)
Record library := {
  netloc_ok : string -> bool;
  parse_result : string -> ParseResult
}.

(** Whether [urlparse] raises ValueError on a url. *)
Definition raises (lib : library) (url : string) : bool :=
  match Urllib.without_scheme (Urllib.remove_unsafe (Urllib.lstrip url)) with
  | String "/" (String "/" rest) =>
      let netloc := Urllib.netloc_of rest in
      Urllib.unbalanced netloc || negb (netloc_ok lib netloc)
  | _ => false
  end.

Definition urlparse (lib : library) (url : string) : exn + ParseResult :=
  if raises lib url then inl ValueError else inr (parse_result lib url).

(** ** Handler programs *)

(** The calls a handler makes: on [self] ([send_response], [send_header],
    [end_headers], [wfile.write]) and on the operating system. *)
Inductive call : Type -> Type :=
| SendResponse (code : N) : call unit
| SendHeader (keyword value : string) : call unit
| EndHeaders : call unit
| WfileWrite (data : bytes) : call unit
| OsPathExists (path : string) : call bool
| Open (path : string) (m : mode) : call file.

Inductive prog (A : Type) : Type :=
| Ret (a : A)
| Raise (e : exn)
| Call (X : Type) (c : call X) (k : X -> prog A).

Arguments Ret {A} a.
Arguments Raise {A} e.
Arguments Call {A X} c k.

Fixpoint bind {A B} (p : prog A) (f : A -> prog B) : prog B :=
  match p with
  | Ret a => f a
  | Raise e => Raise e
  | Call c k => Call c (fun x => bind (k x) f)
  end.

(** A library function that returns or raises, as a program. *)
Definition returned {A} (r : exn + A) : prog A :=
  match r with
  | inl e => Raise e
  | inr a => Ret a
  end.

Declare Scope prog_scope.
Delimit Scope prog_scope with prog.
Notation "x <- p ;; q" := (bind p (fun x => q))
  (at level 61, p at next level, right associativity) : prog_scope.
Notation "p ;; q" := (bind p (fun _ => q))
  (at level 61, right associativity) : prog_scope.

Definition send_response (code : N) : prog unit := Call (SendResponse code) Ret.
Definition send_header (keyword value : string) : prog unit :=
  Call (SendHeader keyword value) Ret.
Definition end_headers : prog unit := Call EndHeaders Ret.
Definition wfile_write (data : bytes) : prog unit := Call (WfileWrite data) Ret.
Definition path_exists (path : string) : prog bool := Call (OsPathExists path) Ret.
Definition open_ (path : string) (m : mode) : prog file := Call (Open path m) Ret.

(** ** RequestHandler *)

Section RequestHandler.

Variable lib : library.

(** [self.path] is the request target as it came in the request line.
    The handler binds what [urlparse] returns and never looks at it; when
    [urlparse] raises, the handler ends there. *)
Definition do_GET (self_path : string) : prog unit :=
  (parsed_path <- returned (urlparse lib self_path) ;;
   if String.prefix "/static/" self_path then
     let path := ("." ++ self_path)%string in
     (found <- path_exists path ;;
      if found : bool then
        send_response 200%N ;;
        send_header "Content-type" "text/javascript" ;;
        end_headers ;;
        file <- open_ path rb ;;
        wfile_write (read file)
      else
        send_response 404%N ;;
        send_header "Content-type" "text/plain" ;;
        end_headers ;;
        wfile_write (b "Not Found"))
   else
     let path := "./index.html" in
     (send_response 200%N ;;
      send_header "Content-type" "text/html" ;;
      send_header "Access-Control-Allow-Origin" "null" ;;
      end_headers ;;
      file <- open_ path rb ;;
      wfile_write (read file)))%prog.

End RequestHandler.

(** ** Running a handler *)

(** What a run leaves behind, in order: the calls made on [self], which
    are what the client is sent, and the system calls with their results.
    What [http.server] makes of the former on the connection is
    [received], further down. *)
Inductive event :=
| SentResponse (code : N)
| SentHeader (keyword value : string)
| EndedHeaders
| Wrote (data : bytes)
| Checked (path : string) (found : bool)
| Opened (path : string) (m : mode) (err : option errno).

(** The state of the serving process: the filesystem it sees, the address
    the server is bound to, what it printed, and the log of the request
    being handled. *)
Record process := {
  fs : filesystem;
  server_address : string * N;
  stdout : list string;
  log : list event
}.

Definition record (st : process) (ev : event) : process :=
  {| fs := fs st; server_address := server_address st;
     stdout := stdout st; log := log st ++ [ev] |}.

Definition with_fs (st : process) (fs' : filesystem) : process :=
  {| fs := fs'; server_address := server_address st;
     stdout := stdout st; log := log st |}.

Inductive outcome (A : Type) :=
| Returned (a : A)
| Raised (e : exn).

Arguments Returned {A} a.
Arguments Raised {A} e.

(** One call: its result, or the exception it raises, and the state
    afterwards. *)
Definition perform {X} (c : call X) (st : process) : (exn + X) * process :=
  match c in call X return (exn + X) * process with
  | SendResponse code => (inr tt, record st (SentResponse code))
  | SendHeader keyword value => (inr tt, record st (SentHeader keyword value))
  | EndHeaders => (inr tt, record st EndedHeaders)
  | WfileWrite data => (inr tt, record st (Wrote data))
  | OsPathExists path =>
      let found := os_path_exists (fs st) path in
      (inr found, record st (Checked path found))
  | Open path m =>
      match os_open (fs st) path m with
      | (inl e, fs') =>
          (inl (OSError e), record (with_fs st fs') (Opened path m (Some e)))
      | (inr data, fs') =>
          (inr {| read := data |}, record (with_fs st fs') (Opened path m None))
      end
  end.

(** The rest of the system: before the call number [n] of a request it
    turns the filesystem into another one. *)
Definition environment := nat -> filesystem -> filesystem.

(** Nothing else touches the filesystem. *)
Definition quiet : environment := fun _ fs => fs.

Definition interfere (env : environment) (st : process) : process :=
  with_fs st (env (List.length (log st)) (fs st)).

(** A program runs call by call; an exception ends the run, as no
    handler program catches one. *)
Fixpoint interp {A} (env : environment) (p : prog A) (st : process)
  : outcome A * process :=
  match p with
  | Ret a => (Returned a, st)
  | Raise e => (Raised e, st)
  | Call c k =>
      match perform c (interfere env st) with
      | (inl e, st') => (Raised e, st')
      | (inr x, st') => interp env (k x) st'
      end
  end.

(** ** What the client is sent *)

Definition to_client (ev : event) : bool :=
  match ev with
  | SentResponse _ | SentHeader _ _ | EndedHeaders | Wrote _ => true
  | Checked _ _ | Opened _ _ _ => false
  end.

Definition sent (l : list event) : list event := filter to_client l.

Record response := {
  status : N;
  headers : list (string * string);
  body : bytes
}.

(** The header calls at the front of a list of events, and the rest. *)
Fixpoint leading_headers (l : list event) : list (string * string) * list event :=
  match l with
  | SentHeader keyword value :: rest =>
      let (hs, rest') := leading_headers rest in ((keyword, value) :: hs, rest')
  | _ => ([], l)
  end.

(** The response a log amounts to, when it amounts to exactly one: one
    status, then headers, then the end of the headers once, then one body
    write, and nothing else. *)
Definition response_of (l : list event) : option response :=
  match sent l with
  | SentResponse code :: rest =>
      match leading_headers rest with
      | (hs, [EndedHeaders; Wrote data]) =>
          Some {| status := code; headers := hs; body := data |}
      | _ => None
      end
  | _ => None
  end.

Definition is_status (ev : event) : bool :=
  match ev with SentResponse _ => true | _ => false end.
Definition is_end_headers (ev : event) : bool :=
  match ev with EndedHeaders => true | _ => false end.
Definition is_body (ev : event) : bool :=
  match ev with Wrote _ => true | _ => false end.

Definition count (f : event -> bool) (l : list event) : nat :=
  List.length (filter f l).

(** The paths a run handed to the operating system. *)
Fixpoint consulted (l : list event) : list string :=
  match l with
  | [] => []
  | Checked path _ :: rest => path :: consulted rest
  | Opened path _ _ :: rest => path :: consulted rest
  | _ :: rest => consulted rest
  end.

(** Whether every system call of a log only reads. *)
Definition read_only (ev : event) : bool :=
  match ev with
  | Opened _ wb _ => false
  | _ => true
  end.

(** ** What reaches the client *)

Inductive line :=
| StatusLine (code : N)
| HeaderLine (keyword value : string)
| EndOfHeaders
| BodyBytes (data : bytes).

(** What the calls of a log put on the connection of an HTTP/1.x request,
    line by line.  [send_response] writes the status line and, on its
    own, the headers Server and Date: [server] is what [version_string()]
    returns and [date] what [date_time_string()] returns at the time of
    the call, to the second. *)
Fixpoint received (server date : string) (l : list event) : list line :=
  match l with
  | [] => []
  | SentResponse code :: rest =>
      StatusLine code :: HeaderLine "Server" server :: HeaderLine "Date" date
        :: received server date rest
  | SentHeader keyword value :: rest =>
      HeaderLine keyword value :: received server date rest
  | EndedHeaders :: rest => EndOfHeaders :: received server date rest
  | Wrote data :: rest => BodyBytes data :: received server date rest
  | Checked _ _ :: rest => received server date rest
  | Opened _ _ _ :: rest => received server date rest
  end.

Definition is_date (x : line) : bool :=
  match x with
  | HeaderLine keyword _ => String.eqb keyword "Date"
  | _ => false
  end.

(** The lines received, the Date headers left out. *)
Definition without_date (ls : list line) : list line :=
  filter (fun x => negb (is_date x)) ls.

(** The header names among the lines received. *)
Fixpoint received_names (ls : list line) : list string :=
  match ls with
  | [] => []
  | HeaderLine keyword _ :: rest => keyword :: received_names rest
  | _ :: rest => received_names rest
  end.

(** ** The server *)

(** One request on a fresh connection. *)
Definition handle (env : environment) (handler : string -> prog unit)
  (st : process) (self_path : string) : outcome unit * process :=
  interp env (handler self_path)
    {| fs := fs st; server_address := server_address st;
       stdout := stdout st; log := [] |}.

(** [serve_forever] on the GET requests that arrive, in order: for each,
    how the handler ended and its log.  A handler that raises ends its own
    request only; the loop goes on to the next one. *)
Fixpoint serve_forever (env : environment) (handler : string -> prog unit)
  (requests : list string) (st : process)
  : list (outcome unit * list event) * process :=
  match requests with
  | [] => ([], st)
  | self_path :: rest =>
      let (o, st') := handle env handler st self_path in
      let (os, st'') := serve_forever env handler rest st' in
      ((o, log st') :: os, st'')
  end.

(** [run_server]: the server is bound to all interfaces on port 8000 with
    [RequestHandler] as its handler, the start-up line is printed, and
    the loop serves the requests that arrive. *)
Definition run_server (lib : library) (env : environment)
  (requests : list string) (fs0 : filesystem)
  : list (outcome unit * list event) * process :=
  let server_address := ("0.0.0.0", 8000%N) in
  let httpd := {| fs := fs0; server_address := server_address;
                  stdout := []; log := [] |} in
  let httpd := {| fs := fs httpd; server_address := server_address;
                  stdout := stdout httpd ++ ["Starting httpd on port 8000..."];
                  log := log httpd |} in
  serve_forever env (do_GET lib) requests httpd.

(** ** A sample site *)

Module Sample.

(** A stand-in for the result of [urlparse] that takes the whole target
    as the path, and a library whose further checks always pass. *)
Definition urlparse (url : string) : ParseResult :=
  {| scheme := ""; netloc := ""; path := url;
     params := ""; query := ""; fragment := "" |}.

Definition lib : library :=
  {| netloc_ok := fun _ => true; parse_result := urlparse |}.

(** The working directory /srv/www holds index.html, a secret next to
    it, and static/ with app.js, a file the process may not read, a
    subdirectory, and a file whose name has a question mark. *)
Definition site : filesystem :=
  {| root :=
       Dir [("srv", Dir [("www", Dir [
         ("index.html", File true (b "<html></html>"));
         ("secret.txt", File true (b "hunter2"));
         ("static", Dir [
            ("app.js", File true (b "console.log(1);"));
            ("locked.js", File false (b "x"));
            ("lib", Dir []);
            ("app.js?v=2", File true (b "odd"))])])])];
     cwd := ["srv"; "www"] |}.

(** The same without index.html. *)
Definition bare : filesystem :=
  {| root := Dir [("srv", Dir [("www", Dir [
         ("static", Dir [("app.js", File true (b "console.log(1);"))])])])];
     cwd := ["srv"; "www"] |}.

Definition start (fs0 : filesystem) : process :=
  {| fs := fs0; server_address := ("0.0.0.0", 8000%N);
     stdout := ["Starting httpd on port 8000..."]; log := [] |}.

(** The site once static/app.js has been removed. *)
Definition gone : filesystem :=
  {| root :=
       Dir [("srv", Dir [("www", Dir [
         ("index.html", File true (b "<html></html>"));
         ("secret.txt", File true (b "hunter2"));
         ("static", Dir [
            ("locked.js", File false (b "x"));
            ("lib", Dir []);
            ("app.js?v=2", File true (b "odd"))])])])];
     cwd := ["srv"; "www"] |}.


(** Another process on the same site: another address, nothing printed,
    a log left over. *)
Definition other : process :=
  {| fs := site; server_address := ("127.0.0.1", 8080%N);
     stdout := []; log := [Wrote (b "left over")] |}.

(** Outcome and log of one GET on a freshly started server. *)
Definition request (fs0 : filesystem) (self_path : string) :=
  let (o, st) := handle quiet (do_GET lib) (start fs0) self_path in
  (o, log st).

End Sample.

(** ** The shapes a run can take *)

Definition static_headers : list event :=
  [SentResponse 200%N; SentHeader "Content-type" "text/javascript"; EndedHeaders].

Definition index_headers : list event :=
  [SentResponse 200%N; SentHeader "Content-type" "text/html";
   SentHeader "Access-Control-Allow-Origin" "null"; EndedHeaders].

Definition not_found : list event :=
  [SentResponse 404%N; SentHeader "Content-type" "text/plain"; EndedHeaders;
   Wrote (b "Not Found")].


(** How a request for [self_path] can end, and the log it then leaves;
    [raised] tells whether [urlparse] raised. *)
Inductive run_shape (raised : bool) (self_path : string)
  : outcome unit -> list event -> Prop :=
| parse_raised :
    raised = true ->
    String.prefix "/static/" self_path = false ->
    run_shape raised self_path (Raised ValueError) []
| static_served data :
    raised = false ->
    String.prefix "/static/" self_path = true ->
    run_shape raised self_path (Returned tt)
      (Checked ("." ++ self_path) true :: static_headers
         ++ [Opened ("." ++ self_path) rb None; Wrote data])
| static_raised e :
    raised = false ->
    String.prefix "/static/" self_path = true ->
    run_shape raised self_path (Raised (OSError e))
      (Checked ("." ++ self_path) true :: static_headers
         ++ [Opened ("." ++ self_path) rb (Some e)])
| static_missing :
    raised = false ->
    String.prefix "/static/" self_path = true ->
    run_shape raised self_path (Returned tt)
      (Checked ("." ++ self_path) false :: not_found)
| index_served data :
    raised = false ->
    String.prefix "/static/" self_path = false ->
    run_shape raised self_path (Returned tt)
      (index_headers ++ [Opened "./index.html" rb None; Wrote data])
| index_raised e :
    raised = false ->
    String.prefix "/static/" self_path = false ->
    run_shape raised self_path (Raised (OSError e))
      (index_headers ++ [Opened "./index.html" rb (Some e)]).


(** What the environment alone makes of the filesystem over the first
    [n] calls of a request. *)
Fixpoint drift (env : environment) (n : nat) (fs0 : filesystem) : filesystem :=
  match n with
  | O => fs0
  | S k => env k (drift env k fs0)
  end.

(** Whether a location lies in the tree under a directory. *)
Fixpoint starts_with (dir loc : list string) : bool :=
  match dir, loc with
  | [], _ => true
  | d :: dir', x :: loc' => String.eqb d x && starts_with dir' loc'
  | _ :: _, [] => false
  end.

(** ** Further vocabulary *)

(** Whether a log holds an [open] at all. *)
Definition opens (ev : event) : bool :=
  match ev with Opened _ _ _ => true | _ => false end.

(** Whether a name is free of '/'. *)
Fixpoint no_slash (s : string) : bool :=
  match s with
  | EmptyString => true
  | String c rest => negb (Ascii.eqb c "/"%char) && no_slash rest
  end.

(** What a freshly started server answers to one request when nothing
    else touches the filesystem: how the handler ended, and its log. *)
Definition answer (lib : library) (fs0 : filesystem)
  (self_path : string) : outcome unit * list event :=
  let r := handle quiet (do_GET lib)
             {| fs := fs0; server_address := ("0.0.0.0", 8000%N);
                stdout := ["Starting httpd on port 8000..."]; log := [] |}
             self_path in
  (fst r, log (snd r)).

Module Scenes.

(** The sample site after static/app.js has been rewritten. *)
Definition rewritten : filesystem :=
  {| root :=
       Dir [("srv", Dir [("www", Dir [
         ("index.html", File true (b "<html></html>"));
         ("secret.txt", File true (b "hunter2"));
         ("static", Dir [
            ("app.js", File true (b "console.log(2);"));
            ("locked.js", File false (b "x"));
            ("lib", Dir []);
            ("app.js?v=2", File true (b "odd"))])])])];
     cwd := ["srv"; "www"] |}.

(** static/app.js is rewritten just before the fifth call of a request. *)
Definition rewrite_before_open : environment :=
  fun n fs0 => if Nat.eqb n 4 then rewritten else fs0.

(** static/app.js appears just before the second call of a request. *)
Definition appear_after_check : environment :=
  fun n fs0 => if Nat.eqb n 1 then Sample.site else fs0.

End Scenes.

(** ** Request paths that climb *)

(** Names put together with '/' between them. *)
Fixpoint join (names : list string) : string :=
  match names with
  | [] => ""
  | x :: rest =>
      match rest with
      | [] => x
      | _ :: _ => x ++ "/" ++ join rest
      end
  end.

(** [k] times "../". *)
Fixpoint dotdots (k : nat) : string :=
  match k with
  | O => ""
  | S k' => "../" ++ dotdots k'
  end.

(** A name a directory entry can bear and a path can spell. *)
Definition plain (name : string) : bool :=
  no_slash name && negb (special name).

Module Host.

(** A host with /etc/passwd and the site in /srv/www. *)
Definition host : filesystem :=
  {| root :=
       Dir [("etc", Dir [("passwd", File true (b "root:x:0:0"))]);
            ("srv", Dir [("www", Dir [
               ("index.html", File true (b "<html></html>"));
               ("static", Dir [("app.js", File true (b "console.log(1);"))])])])];
     cwd := ["srv"; "www"] |}.

End Host.

(** * Properties *)

Lemma os_open_rb (fs0 : filesystem) (p : string) :
  os_open fs0 p rb =
  (match stat fs0 p with
   | inl e => inl e
   | inr (Dir _) => inl EISDIR
   | inr (File false _) => inl EACCES
   | inr (File true data) => inr data
   end, fs0).
Proof.
  unfold os_open. destruct (stat fs0 p) as [e | [[|] data | es]]; reflexivity.
Qed.

(** ** urlparse on a target of the static branch *)

Lemma prefix_split (s p : string) :
  String.prefix s p = true -> exists r : string, p = (s ++ r)%string.
Proof.
  revert p. induction s as [|c s IH]; intros p H; [now exists p|].
  destruct p as [|d p]; cbn in H; [discriminate H|].
  destruct (ascii_dec c d) as [->|]; [|discriminate H].
  destruct (IH p H) as [r ->]. now exists r.
Qed.

Lemma without_scheme_no_letter (c : ascii) (url : string) :
  Urllib.is_alpha c = false ->
  Urllib.without_scheme (String c url) = String c url.
Proof.
  intros Hc. unfold Urllib.without_scheme. cbn [Urllib.at_colon].
  destruct (Ascii.eqb c ":"); [reflexivity|].
  destruct (Urllib.at_colon url) as [[before after]|]; [|reflexivity].
  now rewrite Hc.
Qed.

(** A target that starts with '/static/' has no scheme and no netloc:
    [urlparse] returns. *)
Lemma static_never_raises (lib : library) (p : string) :
  String.prefix "/static/" p = true -> raises lib p = false.
Proof.
  intros Hp. destruct (prefix_split _ _ Hp) as [r ->].
  unfold raises.
  change (Urllib.lstrip ("/static/" ++ r)) with ("/static/" ++ r)%string.
  change (Urllib.remove_unsafe ("/static/" ++ r))
    with ("/static/" ++ Urllib.remove_unsafe r)%string.
  change ("/static/" ++ Urllib.remove_unsafe r)%string
    with (String "/" ("static/" ++ Urllib.remove_unsafe r)).
  now rewrite without_scheme_no_letter.
Qed.

Section Runs.

Variable lib : library.
Variable env : environment.

(** A target on which [urlparse] raises: nothing else happens. *)
Lemma handle_raised (st : process) (p : string) :
  raises lib p = true ->
  handle env (do_GET lib) st p =
  (Raised ValueError,
   {| fs := fs st; server_address := server_address st;
      stdout := stdout st; log := [] |}).
Proof.
  intros Hr. unfold handle, do_GET, urlparse. now rewrite Hr.
Qed.

(** The static branch, call by call. *)
Lemma handle_static (st : process) (p : string) :
  String.prefix "/static/" p = true ->
  handle env (do_GET lib) st p =
  let path := ("." ++ p)%string in
  if os_path_exists (drift env 1 (fs st)) path then
    match fst (os_open (drift env 5 (fs st)) path rb) with
    | inl e =>
        (Raised (OSError e),
         {| fs := drift env 5 (fs st); server_address := server_address st;
            stdout := stdout st;
            log := Checked path true :: static_headers
                     ++ [Opened path rb (Some e)] |})
    | inr data =>
        (Returned tt,
         {| fs := drift env 6 (fs st); server_address := server_address st;
            stdout := stdout st;
            log := Checked path true :: static_headers
                     ++ [Opened path rb None; Wrote data] |})
    end
  else
    (Returned tt,
     {| fs := drift env 5 (fs st); server_address := server_address st;
        stdout := stdout st; log := Checked path false :: not_found |}).
Proof.
  intros Hp. unfold handle, do_GET, urlparse.
  rewrite (static_never_raises lib p Hp), Hp. cbn.
  destruct (os_path_exists _ _); cbn; [|reflexivity].
  destruct (stat _ _) as [e | [[|] data | es]]; reflexivity.
Qed.

(** The fallback branch, call by call, when [urlparse] returns. *)
Lemma handle_index (st : process) (p : string) :
  String.prefix "/static/" p = false ->
  raises lib p = false ->
  handle env (do_GET lib) st p =
  match fst (os_open (drift env 5 (fs st)) "./index.html" rb) with
  | inl e =>
      (Raised (OSError e),
       {| fs := drift env 5 (fs st); server_address := server_address st;
          stdout := stdout st;
          log := index_headers ++ [Opened "./index.html" rb (Some e)] |})
  | inr data =>
      (Returned tt,
       {| fs := drift env 6 (fs st); server_address := server_address st;
          stdout := stdout st;
          log := index_headers ++ [Opened "./index.html" rb None; Wrote data] |})
  end.
Proof.
  intros Hp Hr. unfold handle, do_GET, urlparse. rewrite Hr, Hp. cbn.
  destruct (stat _ _) as [e | [[|] data | es]]; reflexivity.
Qed.

(** Every run has one of the six shapes. *)
Lemma handle_shape (st : process) (p : string) :
  run_shape (raises lib p) p
    (fst (handle env (do_GET lib) st p))
    (log (snd (handle env (do_GET lib) st p))).
Proof.
  destruct (String.prefix "/static/" p) eqn:Hp.
  - rewrite (handle_static st p Hp), (static_never_raises lib p Hp). cbv zeta.
    destruct (os_path_exists _ _).
    + destruct (fst (os_open _ _ _)) as [e | data]; cbn [fst snd log];
        now constructor.
    + now constructor.
  - destruct (raises lib p) eqn:Hr.
    + rewrite (handle_raised st p Hr). now constructor.
    + rewrite (handle_index st p Hp Hr).
      destruct (fst (os_open _ _ _)) as [e | data]; cbn [fst snd log];
        now constructor.
Qed.

(** The handler leaves the process as it found it, the log apart: the
    filesystem after a run is what the environment made of it. *)
Lemma handle_frame (st : process) (p : string) :
  let st' := snd (handle env (do_GET lib) st p) in
  fs st' = drift env (List.length (log st')) (fs st) /\
  server_address st' = server_address st /\
  stdout st' = stdout st.
Proof.
  destruct (String.prefix "/static/" p) eqn:Hp.
  - rewrite (handle_static st p Hp). cbv zeta.
    destruct (os_path_exists _ _).
    + destruct (fst (os_open _ _ _)) as [e | data]; cbn [fst snd log]; repeat split.
    + repeat split.
  - destruct (raises lib p) eqn:Hr.
    + rewrite (handle_raised st p Hr). repeat split.
    + rewrite (handle_index st p Hp Hr).
      destruct (fst (os_open _ _ _)) as [e | data]; cbn [fst snd log]; repeat split.
Qed.

End Runs.

Lemma drift_quiet (n : nat) (fs0 : filesystem) : drift quiet n fs0 = fs0.
Proof. induction n as [|n IH]; [reflexivity | exact IH]. Qed.

Lemma exists_of_stat (fs0 : filesystem) (p : string) (n : node) :
  stat fs0 p = inr n -> os_path_exists fs0 p = true.
Proof. unfold os_path_exists. now intros ->. Qed.

(** ** The three responses *)

(** C1. A GET whose path starts with '/static/', when the path with '.'
    in front names a file the process may read, is answered with status
    200, the one header Content-type: text/javascript, and the bytes of
    that file as body; the handler returns normally. *)
Theorem static_file_is_served
  (lib : library) (st : process) (p : string) (data : bytes) :
  String.prefix "/static/" p = true ->
  stat (fs st) ("." ++ p) = inr (File true data) ->
  fst (handle quiet (do_GET lib) st p) = Returned tt /\
  response_of (log (snd (handle quiet (do_GET lib) st p))) =
    Some {| status := 200%N;
            headers := [("Content-type", "text/javascript")];
            body := data |}.
Proof.
  intros Hp Hstat.
  rewrite (handle_static lib quiet st p Hp). cbv zeta.
  rewrite !drift_quiet, (exists_of_stat _ _ Hstat), os_open_rb, Hstat.
  split; reflexivity.
Qed.

Lemma static_file_is_served_witness :
  String.prefix "/static/" "/static/app.js" = true /\
  stat Sample.site "./static/app.js" = inr (File true (b "console.log(1);")) /\
  fst (handle quiet (do_GET Sample.lib) (Sample.start Sample.site)
         "/static/app.js") = Returned tt /\
  response_of (log (snd (handle quiet (do_GET Sample.lib)
                           (Sample.start Sample.site) "/static/app.js"))) =
    Some {| status := 200%N;
            headers := [("Content-type", "text/javascript")];
            body := b "console.log(1);" |}.
Proof.
  split; [reflexivity | split; [reflexivity |]].
  apply (@static_file_is_served Sample.lib (Sample.start Sample.site)
           "/static/app.js" (b "console.log(1);")); reflexivity.
Defined.

(** The claim of C2 as it is written fails: the target http://[abc/]
    does not start with '/static/' and index.html is there to read, yet
    [urlparse] raises ValueError on it, whatever the library's further
    checks, and the handler ends before it has sent anything. *)
Lemma malformed_target_gets_no_response :
  String.prefix "/static/" "http://[abc/]" = false /\
  stat Sample.site "./index.html" = inr (File true (b "<html></html>")) /\
  (forall lib : library, raises lib "http://[abc/]" = true) /\
  Sample.request Sample.site "http://[abc/]" = (Raised ValueError, []) /\
  ~ (forall (st : process) (p : string) (data : bytes),
        String.prefix "/static/" p = false ->
        stat (fs st) "./index.html" = inr (File true data) ->
        fst (handle quiet (do_GET Sample.lib) st p) = Returned tt).
Proof.
  repeat split.
  intros H.
  specialize (H (Sample.start Sample.site) "http://[abc/]" (b "<html></html>")
                eq_refl eq_refl).
  discriminate H.
Qed.

(** C2, amended. A GET whose path does not start with '/static/' and on
    which [urlparse] returns, whatever the path, when './index.html'
    names a file the process may read, is answered with status 200, the
    headers Content-type: text/html and Access-Control-Allow-Origin: null,
    and the bytes of that file; and any two such paths leave the same
    outcome and the same log. *)
Theorem other_paths_serve_index
  (lib : library) (st : process) (p : string) (data : bytes) :
  String.prefix "/static/" p = false ->
  raises lib p = false ->
  stat (fs st) "./index.html" = inr (File true data) ->
  (fst (handle quiet (do_GET lib) st p) = Returned tt /\
   response_of (log (snd (handle quiet (do_GET lib) st p))) =
     Some {| status := 200%N;
             headers := [("Content-type", "text/html");
                         ("Access-Control-Allow-Origin", "null")];
             body := data |}) /\
  (forall p' : string,
      String.prefix "/static/" p' = false ->
      raises lib p' = false ->
      handle quiet (do_GET lib) st p' = handle quiet (do_GET lib) st p).
Proof.
  intros Hp Hr Hstat. split.
  - rewrite (handle_index lib quiet st p Hp Hr).
    rewrite !drift_quiet, os_open_rb, Hstat.
    split; reflexivity.
  - intros p' Hp' Hr'.
    now rewrite (handle_index lib quiet st p Hp Hr),
                (handle_index lib quiet st p' Hp' Hr').
Qed.

Lemma other_paths_serve_index_witness :
  String.prefix "/static/" "/anything/else" = false /\
  raises Sample.lib "/anything/else" = false /\
  stat Sample.site "./index.html" = inr (File true (b "<html></html>")) /\
  (fst (handle quiet (do_GET Sample.lib) (Sample.start Sample.site)
          "/anything/else") = Returned tt /\
   response_of (log (snd (handle quiet (do_GET Sample.lib)
                            (Sample.start Sample.site) "/anything/else"))) =
     Some {| status := 200%N;
             headers := [("Content-type", "text/html");
                         ("Access-Control-Allow-Origin", "null")];
             body := b "<html></html>" |}) /\
  (forall p' : string,
      String.prefix "/static/" p' = false ->
      raises Sample.lib p' = false ->
      handle quiet (do_GET Sample.lib) (Sample.start Sample.site) p' =
      handle quiet (do_GET Sample.lib) (Sample.start Sample.site)
        "/anything/else").
Proof.
  split; [reflexivity | split; [reflexivity | split; [reflexivity |]]].
  apply (@other_paths_serve_index Sample.lib (Sample.start Sample.site)
           "/anything/else" (b "<html></html>")); reflexivity.
Defined.

(** C3. A GET whose path starts with '/static/', when nothing exists at
    the path with '.' in front, is answered with status 404, the one
    header Content-type: text/plain, and the body b'Not Found'; the
    handler returns normally. *)
Theorem missing_static_is_404
  (lib : library) (st : process) (p : string) :
  String.prefix "/static/" p = true ->
  os_path_exists (fs st) ("." ++ p) = false ->
  fst (handle quiet (do_GET lib) st p) = Returned tt /\
  response_of (log (snd (handle quiet (do_GET lib) st p))) =
    Some {| status := 404%N;
            headers := [("Content-type", "text/plain")];
            body := b "Not Found" |}.
Proof.
  intros Hp Hmissing.
  rewrite (handle_static lib quiet st p Hp). cbv zeta.
  rewrite !drift_quiet, Hmissing.
  split; reflexivity.
Qed.

Lemma missing_static_is_404_witness :
  String.prefix "/static/" "/static/missing.js" = true /\
  os_path_exists Sample.site "./static/missing.js" = false /\
  fst (handle quiet (do_GET Sample.lib) (Sample.start Sample.site)
         "/static/missing.js") = Returned tt /\
  response_of (log (snd (handle quiet (do_GET Sample.lib)
                           (Sample.start Sample.site) "/static/missing.js"))) =
    Some {| status := 404%N;
            headers := [("Content-type", "text/plain")];
            body := b "Not Found" |}.
Proof.
  split; [reflexivity | split; [reflexivity |]].
  apply (@missing_static_is_404 Sample.lib (Sample.start Sample.site)
           "/static/missing.js"); reflexivity.
Defined.

(** The end-to-end scenarios: static/app.js is served, a missing asset
    is a 404, / is the entry document, and so is any other path. *)
Example scenario_app_js :
  Sample.request Sample.site "/static/app.js" =
  (Returned tt,
   Checked "./static/app.js" true :: static_headers
     ++ [Opened "./static/app.js" rb None; Wrote (b "console.log(1);")]).
Proof. reflexivity. Qed.

Example scenario_missing_js :
  Sample.request Sample.site "/static/missing.js" =
  (Returned tt, Checked "./static/missing.js" false :: not_found).
Proof. reflexivity. Qed.

Example scenario_root :
  Sample.request Sample.site "/" =
  (Returned tt,
   index_headers ++ [Opened "./index.html" rb None; Wrote (b "<html></html>")]).
Proof. reflexivity. Qed.

Example scenario_anything_else :
  Sample.request Sample.site "/anything/else" = Sample.request Sample.site "/".
Proof. reflexivity. Qed.

(** ** The path handed to the operating system *)

Lemma get_app (r : node) (l : list string) (x : string) :
  get r (l ++ [x]) =
  match get r l with
  | Some (Dir es) => assoc x es
  | _ => None
  end.
Proof.
  revert r. induction l as [|y l IH]; intros r; cbn.
  - destruct r as [? ?|es]; [reflexivity|]. now destruct (assoc x es).
  - destruct r as [? ?|es]; [reflexivity|].
    destruct (assoc y es) as [c|]; [apply IH | reflexivity].
Qed.

Lemma starts_with_sibling (dir : list string) (x y : string) :
  String.eqb x y = false ->
  starts_with (dir ++ [x]) (dir ++ [y]) = false.
Proof.
  intros Hxy. induction dir as [|d dir IH]; cbn.
  - now rewrite Hxy.
  - now rewrite IH, andb_false_r.
Qed.

Lemma assoc_short (name : string) (es : list (string * node)) (n : node) :
  assoc name es = Some n -> (fsencode_length name <= NAME_MAX)%N.
Proof.
  induction es as [|[m x] es IH]; cbn; [discriminate|].
  destruct (String.eqb m name); cbn; [|exact IH].
  destruct (N.leb (fsencode_length name) NAME_MAX) eqn:Hle; [|exact IH].
  intros _. now apply N.leb_le.
Qed.

Lemma fsencode_length_app (a c : string) :
  fsencode_length (a ++ c) = (fsencode_length a + fsencode_length c)%N.
Proof.
  induction a as [|x a IH]; [reflexivity|].
  cbn [append fsencode_length]. rewrite IH. apply N.add_assoc.
Qed.

Section Walk.

Variables (r : node) (here : list string) (es : list (string * node)).
Hypothesis Hhere : get r (rev here) = Some (Dir es).

Lemma walk_dot (rest : list string) :
  walk r here ("." :: rest) = walk r here rest.
Proof. cbn [walk]. now rewrite Hhere. Qed.

Lemma walk_dotdot (rest : list string) :
  walk r here (".." :: rest) = walk r (tl here) rest.
Proof. cbn [walk]. now rewrite Hhere. Qed.

Lemma walk_name (c : string) (n : node) (rest : list string) :
  special c = false ->
  assoc c es = Some n ->
  walk r here (c :: rest) = walk r (c :: here) rest.
Proof.
  unfold special. intros Hc Hn. cbn [walk]. rewrite Hhere.
  apply orb_false_elim in Hc. destruct Hc as [Hc ->].
  rewrite Hc, Hn.
  now rewrite (proj2 (N.ltb_ge _ _) (assoc_short _ _ Hn)).
Qed.

End Walk.

(** In a working directory that holds a directory static and an entry
    index.html, the path ./static/../index.html leads to that entry. *)
Lemma dotdot_leaves_static (fs0 : filesystem) (es es' : list (string * node))
  (n : node) :
  get (root fs0) (cwd fs0) = Some (Dir es) ->
  assoc "static" es = Some (Dir es') ->
  assoc "index.html" es = Some n ->
  locate fs0 "./static/../index.html" = inr (cwd fs0 ++ ["index.html"]) /\
  stat fs0 "./static/../index.html" = inr n.
Proof.
  intros Hcwd Hstatic Hindex.
  assert (Hhere : get (root fs0) (rev (rev (cwd fs0))) = Some (Dir es))
    by now rewrite rev_involutive.
  assert (Hin : get (root fs0) (rev ("static" :: rev (cwd fs0))) = Some (Dir es')).
  { cbn [rev]. now rewrite rev_involutive, get_app, Hcwd. }
  assert (Hloc : locate fs0 "./static/../index.html"
                 = inr (cwd fs0 ++ ["index.html"])).
  { unfold locate.
    change (String.eqb "./static/../index.html" "") with false.
    change (N.leb PATH_MAX (fsencode_length "./static/../index.html")) with false.
    change (String.prefix "/" "./static/../index.html") with false.
    change (components "./static/../index.html")
      with ["."; "static"; ".."; "index.html"].
    cbv iota.
    rewrite (walk_dot _ _ Hhere).
    rewrite (walk_name _ _ Hhere "static" _ eq_refl Hstatic).
    rewrite (walk_dotdot _ _ Hin). cbn [tl].
    rewrite (walk_name _ _ Hhere "index.html" _ eq_refl Hindex).
    cbn [walk rev]. now rewrite rev_involutive. }
  split; [exact Hloc|].
  unfold stat. now rewrite Hloc, get_app, Hcwd, Hindex.
Qed.

(** C4. For a GET whose path starts with '/static/', under any
    environment, the paths handed to the operating system are the request
    path with '.' in front, unchanged, and nothing else; and for one such
    request path with a '..' component, /static/../index.html, in every
    working directory holding a directory static and an entry index.html,
    that path leads to the entry index.html of the working directory,
    which does not lie under its static directory. *)
Theorem static_path_is_verbatim :
  (forall (lib : library) (env : environment)
          (st : process) (p : string),
      String.prefix "/static/" p = true ->
      let l := log (snd (handle env (do_GET lib) st p)) in
      hd_error l = Some (Checked ("." ++ p) (os_path_exists (env 0 (fs st)) ("." ++ p))) /\
      Forall (eq ("." ++ p)%string) (consulted l)) /\
  (exists p : string,
      String.prefix "/static/" p = true /\
      In ".." (components p) /\
      forall (fs0 : filesystem) (es es' : list (string * node)) (n : node),
        get (root fs0) (cwd fs0) = Some (Dir es) ->
        assoc "static" es = Some (Dir es') ->
        assoc "index.html" es = Some n ->
        locate fs0 ("." ++ p) = inr (cwd fs0 ++ ["index.html"]) /\
        stat fs0 ("." ++ p) = inr n /\
        starts_with (cwd fs0 ++ ["static"]) (cwd fs0 ++ ["index.html"]) = false).
Proof.
  split.
  - intros lib env st p Hp.
    rewrite (handle_static lib env st p Hp). cbv zeta.
    change (drift env 1 (fs st)) with (env 0 (fs st)).
    destruct (os_path_exists _ _).
    + destruct (fst (os_open _ _ _)) as [e | data]; cbn;
        (split; [reflexivity | repeat constructor]).
    + cbn. split; [reflexivity | repeat constructor].
  - exists "/static/../index.html". split; [reflexivity|]. split.
    + cbn. tauto.
    + intros fs0 es es' n Hcwd Hstatic Hindex.
      destruct (dotdot_leaves_static fs0 Hcwd Hstatic Hindex) as [Hloc Hstat].
      repeat split; [exact Hloc | exact Hstat |].
      now apply starts_with_sibling.
Qed.

(** On the sample site the static branch hands out the file next to
    index.html. *)
Example static_branch_reads_outside :
  Sample.request Sample.site "/static/../secret.txt" =
  (Returned tt,
   Checked "./static/../secret.txt" true :: static_headers
     ++ [Opened "./static/../secret.txt" rb None; Wrote (b "hunter2")]) /\
  locate Sample.site "./static/../secret.txt" = inr ["srv"; "www"; "secret.txt"].
Proof. split; reflexivity. Qed.

(** ** Failures *)

Ltac crush :=
  repeat match goal with
         | |- _ /\ _ => split
         | |- _ <-> _ => split
         | |- ~ _ => intro
         | |- forall _, _ => intro
         | H : _ /\ _ |- _ => destruct H
         | H : In _ _ |- _ => cbn in H
         | H : _ \/ _ |- _ => destruct H
         | H : False |- _ => contradiction
         end;
  try reflexivity; try congruence;
  try (unfold FileNotFoundError, IsADirectoryError, PermissionError; congruence);
  try (left; congruence); try (right; congruence);
  try (cbn; tauto).

(** C5. The status 404 is sent exactly when the path starts with
    '/static/' and nothing exists at the path with '.' in front, and no
    other status than 200 and 404 is ever sent.  Every other failure
    leaves the handler as the exception raised: ValueError when
    [urlparse] raises, with nothing sent; past [urlparse], any failure of
    [open], for './index.html' when it is absent (FileNotFoundError) or
    cannot be opened for another reason, and for an existing static path
    that is a directory (IsADirectoryError) or may not be read
    (PermissionError).  A run that raises has sent no 404 and no complete
    response. *)
Theorem only_missing_static_is_reported
  (lib : library) (st : process) (p : string) :
  let o := fst (handle quiet (do_GET lib) st p) in
  let l := log (snd (handle quiet (do_GET lib) st p)) in
  (In (SentResponse 404%N) l <->
     String.prefix "/static/" p = true /\
     os_path_exists (fs st) ("." ++ p) = false) /\
  (forall code : N, In (SentResponse code) l -> code = 200%N \/ code = 404%N) /\
  (raises lib p = true -> o = Raised ValueError /\ l = []) /\
  (String.prefix "/static/" p = false ->
   raises lib p = false ->
     (forall e : errno,
         fst (os_open (fs st) "./index.html" rb) = inl e -> o = Raised (OSError e)) /\
     (stat (fs st) "./index.html" = inl ENOENT -> o = Raised FileNotFoundError)) /\
  (String.prefix "/static/" p = true ->
     (forall e : errno,
         os_path_exists (fs st) ("." ++ p) = true ->
         fst (os_open (fs st) ("." ++ p) rb) = inl e -> o = Raised (OSError e)) /\
     (forall es : list (string * node),
         stat (fs st) ("." ++ p) = inr (Dir es) -> o = Raised IsADirectoryError) /\
     (forall data : bytes,
         stat (fs st) ("." ++ p) = inr (File false data) ->
         o = Raised PermissionError)) /\
  (forall e : exn,
      o = Raised e -> ~ In (SentResponse 404%N) l /\ response_of l = None).
Proof.
  cbv zeta.
  destruct (String.prefix "/static/" p) eqn:Hp.
  - rewrite (handle_static lib quiet st p Hp). cbv zeta.
    rewrite (static_never_raises lib p Hp).
    rewrite !drift_quiet, os_open_rb. unfold os_path_exists.
    destruct (stat (fs st) ("." ++ p)) as [e0 | [[|] data | es]];
      cbn [fst snd log]; crush.
  - destruct (raises lib p) eqn:Hr.
    + rewrite (handle_raised lib quiet st p Hr). cbn [fst snd log]. crush.
    + rewrite (handle_index lib quiet st p Hp Hr).
      rewrite !drift_quiet, os_open_rb.
      destruct (stat (fs st) "./index.html") as [e0 | [[|] data | es]];
        cbn [fst snd log]; crush.
Qed.

(** On a target [urlparse] refuses, the handler raises ValueError before
    it has called anything. *)
Example malformed_target_raises :
  Sample.request Sample.bare "x://[" = (Raised ValueError, []).
Proof. reflexivity. Qed.

Example missing_index_raises :
  Sample.request Sample.bare "/" =
  (Raised FileNotFoundError,
   index_headers ++ [Opened "./index.html" rb (Some ENOENT)]).
Proof. reflexivity. Qed.

Example static_directory_raises :
  Sample.request Sample.site "/static/lib" =
  (Raised IsADirectoryError,
   Checked "./static/lib" true :: static_headers
     ++ [Opened "./static/lib" rb (Some EISDIR)]).
Proof. reflexivity. Qed.

Example unreadable_static_raises :
  Sample.request Sample.site "/static/locked.js" =
  (Raised PermissionError,
   Checked "./static/locked.js" true :: static_headers
     ++ [Opened "./static/locked.js" rb (Some EACCES)]).
Proof. reflexivity. Qed.

(** ** Order of the calls *)


(** ** Query strings *)

Lemma prefix_app (s p x : string) :
  String.prefix s p = true -> String.prefix s (p ++ x) = true.
Proof.
  revert p. induction s as [|c s IH]; intros p H;
    [now destruct (p ++ x)%string|].
  destruct p as [|d p]; cbn in *; [discriminate H|].
  destruct (ascii_dec c d); [now apply IH | discriminate H].
Qed.

(** The claim of C7 as it is written fails: the sample site holds both
    static/app.js and a file named app.js?v=2 next to it, and the request
    /static/app.js?v=2 is answered with status 200 and the bytes of the
    latter, not with 404. *)
Lemma query_string_request_not_always_404 :
  String.prefix "/static/" "/static/app.js" = true /\
  stat Sample.site "./static/app.js" = inr (File true (b "console.log(1);")) /\
  Sample.request Sample.site ("/static/app.js" ++ "?" ++ "v=2") =
    (Returned tt,
     Checked "./static/app.js?v=2" true :: static_headers
       ++ [Opened "./static/app.js?v=2" rb None; Wrote (b "odd")]) /\
  response_of (snd (Sample.request Sample.site ("/static/app.js" ++ "?" ++ "v=2"))) =
    Some {| status := 200%N;
            headers := [("Content-type", "text/javascript")];
            body := b "odd" |} /\
  ~ (forall (st : process) (p q : string),
        String.prefix "/static/" p = true ->
        response_of (log (snd (handle quiet (do_GET Sample.lib) st
                                 (p ++ "?" ++ q)))) =
          Some {| status := 404%N;
                  headers := [("Content-type", "text/plain")];
                  body := b "Not Found" |}).
Proof.
  repeat split.
  intros H.
  specialize (H (Sample.start Sample.site) "/static/app.js" "v=2" eq_refl).
  discriminate H.
Qed.

(** C7, amended. The handler does not depend on what [urlparse] returns.
    For a request target made of a path starting with '/static/', a
    question mark and a query string, the one path handed to the operating
    system is the whole target with '.' in front, query string included;
    when nothing exists under that name the answer is status 404,
    Content-type: text/plain, body b'Not Found', whether or not a file
    exists at the path without the query string. *)
Theorem query_string_is_part_of_path
  (lib : library) (st : process) (p q : string) :
  String.prefix "/static/" p = true ->
  os_path_exists (fs st) ("." ++ p ++ "?" ++ q) = false ->
  let target := (p ++ "?" ++ q)%string in
  let o := fst (handle quiet (do_GET lib) st target) in
  let l := log (snd (handle quiet (do_GET lib) st target)) in
  (forall lib' : library,
      do_GET lib' target = do_GET lib target) /\
  consulted l = [("." ++ p ++ "?" ++ q)%string] /\
  o = Returned tt /\
  response_of l =
    Some {| status := 404%N;
            headers := [("Content-type", "text/plain")];
            body := b "Not Found" |}.
Proof.
  intros Hp Hmissing. cbv zeta.
  assert (Ht : String.prefix "/static/" (p ++ "?" ++ q) = true)
    by now apply prefix_app.
  split.
  { intros lib'. unfold do_GET, urlparse.
    now rewrite !(static_never_raises _ _ Ht). }
  rewrite (handle_static lib quiet st _ Ht). cbv zeta.
  rewrite !drift_quiet.
  change ("." ++ (p ++ "?" ++ q))%string with ("." ++ p ++ "?" ++ q)%string.
  rewrite Hmissing. repeat split.
Qed.

Lemma query_string_is_part_of_path_witness :
  String.prefix "/static/" "/static/app.js" = true /\
  os_path_exists Sample.site ("." ++ "/static/app.js" ++ "?" ++ "v=3") = false /\
  stat Sample.site "./static/app.js" = inr (File true (b "console.log(1);")) /\
  (forall lib' : library,
      do_GET lib' "/static/app.js?v=3" = do_GET Sample.lib "/static/app.js?v=3") /\
  consulted (log (snd (handle quiet (do_GET Sample.lib)
                         (Sample.start Sample.site) "/static/app.js?v=3")))
    = ["./static/app.js?v=3"] /\
  fst (handle quiet (do_GET Sample.lib)
         (Sample.start Sample.site) "/static/app.js?v=3") = Returned tt /\
  response_of (log (snd (handle quiet (do_GET Sample.lib)
                           (Sample.start Sample.site) "/static/app.js?v=3"))) =
    Some {| status := 404%N;
            headers := [("Content-type", "text/plain")];
            body := b "Not Found" |}.
Proof.
  split; [reflexivity | split; [reflexivity | split; [reflexivity |]]].
  apply (@query_string_is_part_of_path Sample.lib
           (Sample.start Sample.site) "/static/app.js" "v=3"); reflexivity.
Defined.

(** ** One response per request *)

(** The claim of C8 as it is written fails: without index.html, the
    request / gets a status and a header block but no body, and the
    handler raises; and on the target http://[abc/] the handler raises
    before [send_response] is called at all. *)
Lemma missing_index_sends_no_body :
  fst (Sample.request Sample.bare "/") = Raised FileNotFoundError /\
  count is_status (snd (Sample.request Sample.bare "/")) = 1 /\
  count is_end_headers (snd (Sample.request Sample.bare "/")) = 1 /\
  count is_body (snd (Sample.request Sample.bare "/")) = 0 /\
  response_of (snd (Sample.request Sample.bare "/")) = None /\
  fst (Sample.request Sample.site "http://[abc/]") = Raised ValueError /\
  count is_status (snd (Sample.request Sample.site "http://[abc/]")) = 0 /\
  ~ (forall (st : process) (p : string),
        count is_body (log (snd (handle quiet (do_GET Sample.lib) st p))) = 1).
Proof.
  repeat split.
  intros H. specialize (H (Sample.start Sample.bare) "/"). discriminate H.
Qed.

(** C8, amended. Under any environment: when [urlparse] raises, the
    handler raises ValueError and nothing is called; when it returns,
    [send_response] is called exactly once and first, the headers follow,
    [end_headers] is called exactly once after them, and at most one body
    write follows.  On every run each of the three is called at most
    once.  A run that returns has made exactly one of each, so its log is
    exactly one response; a run that raises has written no body. *)
Theorem one_status_and_at_most_one_body
  (lib : library) (env : environment)
  (st : process) (p : string) :
  let o := fst (handle env (do_GET lib) st p) in
  let l := log (snd (handle env (do_GET lib) st p)) in
  (raises lib p = true -> o = Raised ValueError /\ l = []) /\
  (raises lib p = false ->
     count is_status l = 1 /\
     count is_end_headers l = 1 /\
     exists (code : N) (hs : list (string * string)) (rest : list event),
       sent l = SentResponse code :: rest /\
       (leading_headers rest = (hs, [EndedHeaders]) \/
        exists data : bytes,
          leading_headers rest = (hs, [EndedHeaders; Wrote data]))) /\
  (count is_status l <= 1 /\ count is_end_headers l <= 1 /\ count is_body l <= 1) /\
  (o = Returned tt ->
     count is_status l = 1 /\ count is_end_headers l = 1 /\
     count is_body l = 1 /\ exists r : response, response_of l = Some r) /\
  (forall e : exn, o = Raised e -> count is_body l = 0 /\ response_of l = None).
Proof.
  cbv zeta.
  pose proof (handle_shape lib env st p) as Hshape.
  destruct Hshape
    as [Hr Hp | data Hr Hp | e Hr Hp | Hr Hp | data Hr Hp | e Hr Hp];
    rewrite Hr;
    (split; [first [discriminate | intros _; now split] |]);
    (split; [ first [ discriminate
                    | intros _; split; [reflexivity |]; split; [reflexivity |];
                      eexists _, _, _; split; [reflexivity |];
                      first [ left; reflexivity | right; eexists; reflexivity ] ] |]);
    (split; [cbn; lia |]); split.
  all: try discriminate.
  all: try (intros _; repeat (split; [reflexivity |]); eexists; reflexivity).
  all: try (intros e' _; split; reflexivity).
Qed.

(** ** The handler only reads *)

Lemma handle_quiet_fs (lib : library) (st : process)
  (p : string) :
  fs (snd (handle quiet (do_GET lib) st p)) = fs st.
Proof.
  destruct (handle_frame lib quiet st p) as (Hfs & _).
  rewrite Hfs. apply drift_quiet.
Qed.

Lemma log_read_only (lib : library) (env : environment)
  (st : process) (p : string) :
  forallb read_only (log (snd (handle env (do_GET lib) st p))) = true.
Proof.
  pose proof (handle_shape lib env st p) as Hshape.
  now destruct Hshape.
Qed.

Lemma serve_forever_frame (lib : library)
  (requests : list string) (st : process) :
  let st' := snd (serve_forever quiet (do_GET lib) requests st) in
  fs st' = fs st /\ server_address st' = server_address st /\
  stdout st' = stdout st.
Proof.
  revert st. induction requests as [|p rest IH]; intros st; cbn.
  - repeat split.
  - destruct (handle quiet (do_GET lib) st p) as [o st1] eqn:H1.
    specialize (IH st1). cbv zeta in IH.
    destruct (serve_forever quiet (do_GET lib) rest st1) as [os st2].
    cbn [snd] in *.
    destruct (handle_frame lib quiet st p) as (_ & Ha & Ho).
    pose proof (handle_quiet_fs lib st p) as Hf.
    rewrite H1 in Ha, Ho, Hf. cbn [snd] in *.
    destruct IH as (IHf & IHa & IHo).
    repeat split; congruence.
Qed.

(** Outcome and log of a request depend on the process only through its
    filesystem. *)
Lemma handle_same_fs (lib : library) (env : environment)
  (st1 st2 : process) (p : string) :
  fs st1 = fs st2 ->
  fst (handle env (do_GET lib) st1 p) = fst (handle env (do_GET lib) st2 p) /\
  log (snd (handle env (do_GET lib) st1 p)) =
  log (snd (handle env (do_GET lib) st2 p)).
Proof.
  intros Hfs.
  destruct (String.prefix "/static/" p) eqn:Hp.
  - rewrite !(handle_static lib env _ p Hp). cbv zeta. rewrite Hfs.
    destruct (os_path_exists _ _); [|split; reflexivity].
    destruct (fst (os_open _ _ _)); split; reflexivity.
  - destruct (raises lib p) eqn:Hr.
    + rewrite !(handle_raised lib env _ p Hr). split; reflexivity.
    + rewrite !(handle_index lib env _ p Hp Hr). rewrite Hfs.
      destruct (fst (os_open _ _ _)); split; reflexivity.
Qed.

(** What the n-th GET of a serving loop is answered is what it would be
    answered alone. *)
Lemma serve_forever_each (lib : library)
  (requests : list string) (st : process) :
  fst (serve_forever quiet (do_GET lib) requests st) =
  map (fun p => (fst (handle quiet (do_GET lib) st p),
                 log (snd (handle quiet (do_GET lib) st p)))) requests.
Proof.
  revert st. induction requests as [|p rest IH]; intros st; cbn; [reflexivity|].
  destruct (handle quiet (do_GET lib) st p) as [o st1] eqn:H1.
  specialize (IH st1).
  destruct (serve_forever quiet (do_GET lib) rest st1) as [os st2].
  cbn [fst snd] in *. rewrite IH. f_equal.
  apply map_ext. intros p'.
  pose proof (handle_quiet_fs lib st p) as Hf. rewrite H1 in Hf. cbn [snd] in Hf.
  destruct (handle_same_fs lib quiet st1 st p' Hf) as [Ho Hl].
  now rewrite Ho, Hl.
Qed.

Lemma without_date_received (server d1 d2 : string) (l : list event) :
  without_date (received server d1 l) = without_date (received server d2 l).
Proof.
  unfold without_date.
  induction l as [|ev l IH]; [reflexivity|].
  destruct ev as [code | keyword value | | data | path found | path m err];
    cbn [received filter is_date negb String.eqb Ascii.eqb Bool.eqb];
    try (now rewrite IH); exact IH.
Qed.

(** The claim of C9 as it is written fails: served the same request twice
    on unchanged files, the handler makes the same calls both times, but
    [send_response] stamps the time of the call in a Date header, so one
    second apart the two responses are not the same bytes. *)
Lemma repeated_request_differs_in_date :
  map snd (fst (run_server Sample.lib quiet
                  ["/static/app.js"; "/static/app.js"] Sample.site)) =
    [snd (Sample.request Sample.site "/static/app.js");
     snd (Sample.request Sample.site "/static/app.js")] /\
  received "BaseHTTP/0.6 Python/3.11.9" "Tue, 03 Nov 2026 08:50:00 GMT"
    (snd (Sample.request Sample.site "/static/app.js")) =
    [StatusLine 200%N;
     HeaderLine "Server" "BaseHTTP/0.6 Python/3.11.9";
     HeaderLine "Date" "Tue, 03 Nov 2026 08:50:00 GMT";
     HeaderLine "Content-type" "text/javascript";
     EndOfHeaders;
     BodyBytes (b "console.log(1);")] /\
  received "BaseHTTP/0.6 Python/3.11.9" "Tue, 03 Nov 2026 08:50:00 GMT"
    (snd (Sample.request Sample.site "/static/app.js")) <>
  received "BaseHTTP/0.6 Python/3.11.9" "Tue, 03 Nov 2026 08:50:01 GMT"
    (snd (Sample.request Sample.site "/static/app.js")) /\
  ~ (forall (server d1 d2 : string) (st : process) (p : string),
        received server d1 (log (snd (handle quiet (do_GET Sample.lib) st p))) =
        received server d2 (log (snd (handle quiet (do_GET Sample.lib) st p)))).
Proof.
  split; [reflexivity | split; [reflexivity | split]].
  - discriminate.
  - intros H.
    specialize (H "BaseHTTP/0.6 Python/3.11.9" "Tue, 03 Nov 2026 08:50:00 GMT"
                  "Tue, 03 Nov 2026 08:50:01 GMT"
                  (Sample.start Sample.site) "/static/app.js").
    discriminate H.
Qed.

(** C9, amended. With nothing else touching the filesystem, two runs of
    the handler on the same path from processes that see the same
    filesystem end the same way and make the same calls, hence the same
    status, the same headers set by the handler and the same body; when
    the server is sent the same GET request any number of times in a row,
    every one of them is answered as the first is; and what the client
    receives is the same but for the Date header, and the same bytes when
    the two calls of [send_response] fall in the same second. *)
Theorem same_files_same_response
  (lib : library) (st1 st2 : process) (p : string) :
  fs st1 = fs st2 ->
  (fst (handle quiet (do_GET lib) st1 p) =
   fst (handle quiet (do_GET lib) st2 p) /\
   log (snd (handle quiet (do_GET lib) st1 p)) =
   log (snd (handle quiet (do_GET lib) st2 p)) /\
   response_of (log (snd (handle quiet (do_GET lib) st1 p))) =
   response_of (log (snd (handle quiet (do_GET lib) st2 p)))) /\
  (forall n : nat,
      fst (serve_forever quiet (do_GET lib) (repeat p n) st1) =
      repeat (fst (handle quiet (do_GET lib) st2 p),
              log (snd (handle quiet (do_GET lib) st2 p))) n) /\
  (forall server date : string,
      received server date (log (snd (handle quiet (do_GET lib) st1 p))) =
      received server date (log (snd (handle quiet (do_GET lib) st2 p)))) /\
  (forall server d1 d2 : string,
      without_date (received server d1 (log (snd (handle quiet (do_GET lib) st1 p)))) =
      without_date (received server d2 (log (snd (handle quiet (do_GET lib) st2 p))))).
Proof.
  intros Hfs.
  destruct (handle_same_fs lib quiet st1 st2 p Hfs) as [Ho Hl].
  split; [now rewrite Ho, Hl|].
  split.
  { intros n. rewrite serve_forever_each, map_repeat. now rewrite Ho, Hl. }
  split.
  - intros server date. now rewrite Hl.
  - intros server d1 d2. rewrite Hl. apply without_date_received.
Qed.

Lemma same_files_same_response_witness :
  fs (Sample.start Sample.site) = fs Sample.other /\
  (forall n : nat,
      fst (serve_forever quiet (do_GET Sample.lib) (repeat "/static/app.js" n)
             (Sample.start Sample.site)) =
      repeat (fst (handle quiet (do_GET Sample.lib) Sample.other "/static/app.js"),
              log (snd (handle quiet (do_GET Sample.lib) Sample.other "/static/app.js"))) n) /\
  (forall server date : string,
      received server date
        (log (snd (handle quiet (do_GET Sample.lib) (Sample.start Sample.site)
                     "/static/app.js"))) =
      received server date
        (log (snd (handle quiet (do_GET Sample.lib) Sample.other "/static/app.js")))) /\
  (forall server d1 d2 : string,
      without_date
        (received server d1
           (log (snd (handle quiet (do_GET Sample.lib) (Sample.start Sample.site)
                        "/static/app.js")))) =
      without_date
        (received server d2
           (log (snd (handle quiet (do_GET Sample.lib) Sample.other "/static/app.js"))))).
Proof.
  split; [reflexivity|].
  apply (@same_files_same_response Sample.lib (Sample.start Sample.site)
           Sample.other "/static/app.js"); reflexivity.
Defined.

(** Opening for writing does change the filesystem: the frame property
    below rests on the mode the handler passes. *)
Example open_wb_creates :
  snd (os_open Sample.bare "./index.html" wb) <> Sample.bare /\
  stat (snd (os_open Sample.bare "./index.html" wb)) "./index.html"
    = inr (File true []).
Proof. split; [discriminate | reflexivity]. Qed.

(** C10. Every system call of a run only reads: the handler checks
    existence and opens with mode 'rb', nothing else.  With nothing else
    touching the filesystem, a request leaves the filesystem, the bind
    address and what the process printed as they were, and so does any
    sequence of requests served by [run_server], whose bind address stays
    ('0.0.0.0', 8000).  Under any environment the filesystem after a
    request is what the environment alone made of it. *)
Theorem handler_only_reads
  (lib : library) (st : process) (p : string) :
  let st' := snd (handle quiet (do_GET lib) st p) in
  (fs st' = fs st /\
   server_address st' = server_address st /\
   stdout st' = stdout st /\
   forallb read_only (log st') = true) /\
  (forall env : environment,
      let st'' := snd (handle env (do_GET lib) st p) in
      fs st'' = drift env (List.length (log st'')) (fs st) /\
      forallb read_only (log st'') = true) /\
  (forall requests : list string,
      let st'' := snd (serve_forever quiet (do_GET lib) requests st) in
      fs st'' = fs st /\ server_address st'' = server_address st /\
      stdout st'' = stdout st) /\
  (forall (requests : list string) (fs0 : filesystem),
      let st'' := snd (run_server lib quiet requests fs0) in
      fs st'' = fs0 /\ server_address st'' = ("0.0.0.0", 8000%N) /\
      stdout st'' = ["Starting httpd on port 8000..."]).
Proof.
  cbv zeta. split; [|split; [|split]].
  - destruct (handle_frame lib quiet st p) as (_ & Ha & Ho).
    repeat split; auto using handle_quiet_fs, log_read_only.
  - intros env. destruct (handle_frame lib env st p) as (Hf & _).
    split; [exact Hf | apply log_read_only].
  - intros requests. apply serve_forever_frame.
  - intros requests fs0. unfold run_server. cbv zeta.
    apply (serve_forever_frame lib requests
             {| fs := fs0; server_address := ("0.0.0.0", 8000%N);
                stdout := [] ++ ["Starting httpd on port 8000..."]; log := [] |}).
Qed.

(** * Further properties *)

(** ** Path resolution *)

Lemma split_acc_no_slash (s : string) :
  forall acc : list ascii,
    no_slash s = true -> split_acc acc s = [rev_string acc s].
Proof.
  induction s as [|c s IH]; intros acc H; cbn in *; [reflexivity|].
  apply andb_prop in H. destruct H as [Hc Hs].
  destruct (Ascii.eqb c "/"); [discriminate Hc|].
  now rewrite (IH (c :: acc) Hs).
Qed.

Lemma split_acc_slash (s : string) :
  forall acc : list ascii,
    split_acc acc (s ++ "/") = (split_acc acc s ++ [""])%list.
Proof.
  induction s as [|c s IH]; intros acc; cbn; [reflexivity|].
  destruct (Ascii.eqb c "/"); cbn; now rewrite IH.
Qed.

Lemma split_acc_cons (s : string) (acc : list ascii) :
  exists (c : string) (rest : list string), split_acc acc s = c :: rest.
Proof.
  revert acc. induction s as [|a s IH]; intros acc; cbn; [now eexists _, _|].
  destruct (Ascii.eqb a "/"); [now eexists _, _ | apply IH].
Qed.

Lemma walk_app (r : node) (l1 l2 : list string) :
  forall here : list string,
    walk r here (l1 ++ l2) =
    match walk r here l1 with
    | inl e => inl e
    | inr h => walk r h l2
    end.
Proof.
  induction l1 as [|c l1 IH]; intros here; cbn [walk app]; [reflexivity|].
  destruct (get r (rev here)) as [[? ?|es]|]; try reflexivity.
  destruct (String.eqb c "" || String.eqb c "."); [apply IH|].
  destruct (String.eqb c ".."); [apply IH|].
  destruct (N.ltb NAME_MAX (fsencode_length c)); [reflexivity|].
  destruct (assoc c es); [apply IH | reflexivity].
Qed.

(** A component that stays where it is changes nothing when more
    components follow. *)
Lemma walk_skip (r : node) (here : list string) (c d : string)
  (rest : list string) :
  String.eqb c "" || String.eqb c "." = true ->
  walk r here (c :: d :: rest) = walk r here (d :: rest).
Proof.
  intros Hc. cbn [walk]. rewrite Hc.
  now destruct (get r (rev here)) as [[? ?|es]|].
Qed.

Lemma walk_cons_ext (r : node) (c : string) (l l' : list string) :
  (forall h : list string, walk r h l = walk r h l') ->
  forall here : list string, walk r here (c :: l) = walk r here (c :: l').
Proof.
  intros H here. cbn [walk].
  destruct (get r (rev here)) as [[? ?|es]|]; try reflexivity.
  destruct (String.eqb c "" || String.eqb c "."); [apply H|].
  destruct (String.eqb c ".."); [apply H|].
  destruct (N.ltb NAME_MAX (fsencode_length c)); [reflexivity|].
  destruct (assoc c es); [apply H | reflexivity].
Qed.

Lemma walk_empty (r : node) (here : list string) (es : list (string * node))
  (rest : list string) :
  get r (rev here) = Some (Dir es) ->
  walk r here ("" :: rest) = walk r here rest.
Proof. intros H. cbn [walk]. now rewrite H. Qed.

Lemma prefix_slash_app (c : ascii) (s x : string) :
  String.prefix "/" (String c s ++ x) = String.prefix "/" (String c s).
Proof.
  change (String.prefix "/" (String c s ++ x))
    with (if ascii_dec "/" c then String.prefix "" (s ++ x) else false).
  change (String.prefix "/" (String c s))
    with (if ascii_dec "/" c then String.prefix "" s else false).
  destruct (ascii_dec "/" c); [|reflexivity].
  destruct (s ++ x)%string; destruct s; reflexivity.
Qed.

(** A trailing slash after a path that names a regular file: the file
    is not a directory, or the path has grown too long. *)
Lemma stat_file_slash (fs0 : filesystem) (c : ascii) (s : string)
  (rd : bool) (data : bytes) :
  stat fs0 (String c s) = inr (File rd data) ->
  exists e : errno, stat fs0 (String c s ++ "/") = inl e.
Proof.
  unfold stat, locate, components.
  change (String.eqb (String c s ++ "/") "") with false.
  change (String.eqb (String c s) "") with false.
  rewrite prefix_slash_app.
  cbv iota.
  destruct (N.leb PATH_MAX (fsencode_length (String c s))); [discriminate|].
  destruct (N.leb PATH_MAX (fsencode_length (String c s ++ "/")));
    [intros _; now exists ENAMETOOLONG|].
  rewrite split_acc_slash, walk_app.
  destruct (walk _ _ _) as [e | here]; [discriminate|].
  destruct (get (root fs0) (rev here)) as [[rd' data'|es]|] eqn:Hget;
    try discriminate.
  intros _. cbn [walk]. rewrite Hget. now exists ENOTDIR.
Qed.

Lemma leb_of_ltb (x y : N) : N.ltb x y = true -> N.leb y x = false.
Proof. intros H. apply N.leb_gt. now apply N.ltb_lt. Qed.

(** Below static, a doubled slash or a "." component leads where the
    plain path leads, as long as the path is not too long. *)
Lemma stat_static_alias (fs0 : filesystem) (s : string) :
  N.ltb (fsencode_length ("./static/./" ++ s)) PATH_MAX = true ->
  stat fs0 ("./static//" ++ s) = stat fs0 ("./static/" ++ s) /\
  stat fs0 ("./static/./" ++ s) = stat fs0 ("./static/" ++ s).
Proof.
  intros Hlen.
  assert (Hl2 : N.leb PATH_MAX (fsencode_length ("./static/./" ++ s)) = false)
    by now apply leb_of_ltb.
  apply N.ltb_lt in Hlen. rewrite fsencode_length_app in Hlen.
  change (fsencode_length "./static/./") with 11%N in Hlen.
  assert (Hl1 : N.leb PATH_MAX (fsencode_length ("./static//" ++ s)) = false).
  { apply N.leb_gt. rewrite fsencode_length_app.
    change (fsencode_length "./static//") with 10%N. unfold PATH_MAX in *. lia. }
  assert (Hl0 : N.leb PATH_MAX (fsencode_length ("./static/" ++ s)) = false).
  { apply N.leb_gt. rewrite fsencode_length_app.
    change (fsencode_length "./static/") with 9%N. unfold PATH_MAX in *. lia. }
  destruct (split_acc_cons s []) as (d & rest & Hs).
  assert (H0 : components ("./static//" ++ s) = "." :: "static" :: "" :: d :: rest)
    by (unfold components; cbn; now rewrite Hs).
  assert (H1 : components ("./static/./" ++ s) = "." :: "static" :: "." :: d :: rest)
    by (unfold components; cbn; now rewrite Hs).
  assert (H2 : components ("./static/" ++ s) = "." :: "static" :: d :: rest)
    by (unfold components; cbn; now rewrite Hs).
  unfold stat, locate. rewrite H0, H1, H2, Hl0, Hl1, Hl2.
  change (String.eqb ("./static//" ++ s) "") with false.
  change (String.eqb ("./static/./" ++ s) "") with false.
  change (String.eqb ("./static/" ++ s) "") with false.
  change (String.prefix "/" ("./static//" ++ s)) with false.
  change (String.prefix "/" ("./static/./" ++ s)) with false.
  change (String.prefix "/" ("./static/" ++ s)) with false.
  cbv iota.
  rewrite (@walk_cons_ext (root fs0) "." _ _
             (@walk_cons_ext (root fs0) "static" _ _
                (fun h => @walk_skip (root fs0) h "" d rest eq_refl))).
  rewrite (@walk_cons_ext (root fs0) "." _ _
             (@walk_cons_ext (root fs0) "static" _ _
                (fun h => @walk_skip (root fs0) h "." d rest eq_refl))).
  split; reflexivity.
Qed.

Lemma stat_dir_slash (fs0 : filesystem) (c : ascii) (s : string)
  (es : list (string * node)) :
  N.ltb (fsencode_length (String c s ++ "/")) PATH_MAX = true ->
  stat fs0 (String c s) = inr (Dir es) ->
  stat fs0 (String c s ++ "/") = inr (Dir es).
Proof.
  intros Hlen. unfold stat, locate, components.
  rewrite (leb_of_ltb _ _ Hlen).
  change (String.eqb (String c s ++ "/") "") with false.
  change (String.eqb (String c s) "") with false.
  rewrite prefix_slash_app.
  cbv iota.
  destruct (N.leb PATH_MAX (fsencode_length (String c s))); [discriminate|].
  rewrite split_acc_slash, walk_app.
  destruct (walk _ _ _) as [e | here]; [discriminate|].
  destruct (get (root fs0) (rev here)) as [[rd' data'|es0]|] eqn:Hget;
    try discriminate.
  intros H. cbn [walk]. rewrite Hget. cbn [String.eqb orb]. now rewrite Hget.
Qed.

(** In a working directory that holds a directory static, the path
    ./static/../name leads to the entry name of the working directory. *)
Lemma stat_sibling (fs0 : filesystem) (es es' : list (string * node))
  (name : string) (n : node) :
  get (root fs0) (cwd fs0) = Some (Dir es) ->
  assoc "static" es = Some (Dir es') ->
  no_slash name = true ->
  special name = false ->
  assoc name es = Some n ->
  stat fs0 ("./static/../" ++ name) = inr n.
Proof.
  intros Hcwd Hstatic Hslash Hspecial Hname.
  assert (Hhere : get (root fs0) (rev (rev (cwd fs0))) = Some (Dir es))
    by now rewrite rev_involutive.
  assert (Hin : get (root fs0) (rev ("static" :: rev (cwd fs0))) = Some (Dir es')).
  { cbn [rev]. now rewrite rev_involutive, get_app, Hcwd. }
  assert (Hc : components ("./static/../" ++ name) = ["."; "static"; ".."; name]).
  { unfold components. cbn. now rewrite (split_acc_no_slash name [] Hslash). }
  assert (Hlen : N.leb PATH_MAX (fsencode_length ("./static/../" ++ name)) = false).
  { apply N.leb_gt. rewrite fsencode_length_app.
    change (fsencode_length "./static/../") with 12%N.
    pose proof (assoc_short _ _ Hname) as Hshort.
    unfold PATH_MAX, NAME_MAX in *. lia. }
  unfold stat, locate. rewrite Hc, Hlen.
  change (String.eqb ("./static/../" ++ name) "") with false.
  change (String.prefix "/" ("./static/../" ++ name)) with false.
  cbv iota.
  rewrite (walk_dot _ _ Hhere).
  rewrite (walk_name _ _ Hhere "static" _ eq_refl Hstatic).
  rewrite (walk_dotdot _ _ Hin). cbn [tl].
  rewrite (walk_name _ _ Hhere name _ Hspecial Hname).
  cbn [walk rev]. now rewrite rev_involutive, get_app, Hcwd, Hname.
Qed.

(** ** The serving loop *)

(** X1. With nothing else touching the filesystem, [run_server] answers
    the requests in the order they arrive, one answer each, and every
    request exactly as a freshly started server answers it alone: no
    request, whether its handler returned or raised, changes what a later
    one gets. *)
Theorem run_server_answers_each_alone
  (lib : library) (fs0 : filesystem) :
  (forall requests : list string,
      fst (run_server lib quiet requests fs0) =
      map (answer lib fs0) requests) /\
  (forall before after : list string,
      fst (run_server lib quiet (before ++ after) fs0) =
      (fst (run_server lib quiet before fs0)
         ++ map (answer lib fs0) after)%list).
Proof.
  assert (H : forall requests : list string,
             fst (run_server lib quiet requests fs0) =
             map (answer lib fs0) requests).
  { intros requests. unfold run_server. cbv zeta.
    now rewrite serve_forever_each. }
  split; [exact H|].
  intros before after. now rewrite !H, map_app.
Qed.

(** A request that raises in the middle leaves the later one served. *)
Example server_survives_a_raise :
  fst (run_server Sample.lib quiet
         ["/static/lib"; "/static/app.js"] Sample.site) =
  [(Raised IsADirectoryError,
    Checked "./static/lib" true :: static_headers
      ++ [Opened "./static/lib" rb (Some EISDIR)]);
   (Returned tt,
    Checked "./static/app.js" true :: static_headers
      ++ [Opened "./static/app.js" rb None; Wrote (b "console.log(1);")])].
Proof. reflexivity. Qed.

(** ** The handler while the filesystem changes *)

(** X2. Under any environment, when the check finds an entry at the
    static path and, by the time of the open, the path names a file the
    process may read, the answer is 200, Content-type: text/javascript,
    and the bytes the file holds at the open, whatever it held at the
    check. *)
Theorem static_body_is_read_at_open
  (lib : library) (env : environment) (st : process)
  (p : string) (data : bytes) :
  String.prefix "/static/" p = true ->
  os_path_exists (env 0 (fs st)) ("." ++ p) = true ->
  stat (drift env 5 (fs st)) ("." ++ p) = inr (File true data) ->
  fst (handle env (do_GET lib) st p) = Returned tt /\
  response_of (log (snd (handle env (do_GET lib) st p))) =
    Some {| status := 200%N;
            headers := [("Content-type", "text/javascript")];
            body := data |}.
Proof.
  intros Hp Hcheck Hstat.
  rewrite (handle_static lib env st p Hp). cbv zeta.
  change (drift env 1 (fs st)) with (env 0 (fs st)).
  rewrite Hcheck, os_open_rb, Hstat.
  split; reflexivity.
Qed.

Lemma static_body_is_read_at_open_witness :
  String.prefix "/static/" "/static/app.js" = true /\
  stat (Scenes.rewrite_before_open 0 Sample.site) "./static/app.js"
    = inr (File true (b "console.log(1);")) /\
  stat (drift Scenes.rewrite_before_open 5 Sample.site) "./static/app.js"
    = inr (File true (b "console.log(2);")) /\
  fst (handle Scenes.rewrite_before_open (do_GET Sample.lib)
         (Sample.start Sample.site) "/static/app.js") = Returned tt /\
  response_of (log (snd (handle Scenes.rewrite_before_open (do_GET Sample.lib)
                           (Sample.start Sample.site) "/static/app.js"))) =
    Some {| status := 200%N;
            headers := [("Content-type", "text/javascript")];
            body := b "console.log(2);" |}.
Proof.
  split; [reflexivity | split; [reflexivity | split; [reflexivity |]]].
  apply (@static_body_is_read_at_open Sample.lib Scenes.rewrite_before_open
           (Sample.start Sample.site) "/static/app.js" (b "console.log(2);"));
    reflexivity.
Defined.

(** X3. Under any environment, when the check finds nothing at the
    static path the answer is 404, Content-type: text/plain, b'Not Found',
    even if the file appears right after the check: the handler makes no
    other system call than that check and opens nothing. *)
Theorem not_found_is_decided_at_the_check
  (lib : library) (env : environment) (st : process)
  (p : string) :
  String.prefix "/static/" p = true ->
  os_path_exists (env 0 (fs st)) ("." ++ p) = false ->
  fst (handle env (do_GET lib) st p) = Returned tt /\
  response_of (log (snd (handle env (do_GET lib) st p))) =
    Some {| status := 404%N;
            headers := [("Content-type", "text/plain")];
            body := b "Not Found" |} /\
  consulted (log (snd (handle env (do_GET lib) st p))) = [("." ++ p)%string] /\
  existsb opens (log (snd (handle env (do_GET lib) st p))) = false.
Proof.
  intros Hp Hcheck.
  rewrite (handle_static lib env st p Hp). cbv zeta.
  change (drift env 1 (fs st)) with (env 0 (fs st)).
  rewrite Hcheck. repeat split.
Qed.

Lemma not_found_is_decided_at_the_check_witness :
  String.prefix "/static/" "/static/app.js" = true /\
  os_path_exists (Scenes.appear_after_check 0 Sample.gone) "./static/app.js" = false /\
  os_path_exists (drift Scenes.appear_after_check 2 Sample.gone) "./static/app.js" = true /\
  fst (handle Scenes.appear_after_check (do_GET Sample.lib)
         (Sample.start Sample.gone) "/static/app.js") = Returned tt /\
  response_of (log (snd (handle Scenes.appear_after_check (do_GET Sample.lib)
                           (Sample.start Sample.gone) "/static/app.js"))) =
    Some {| status := 404%N;
            headers := [("Content-type", "text/plain")];
            body := b "Not Found" |} /\
  consulted (log (snd (handle Scenes.appear_after_check (do_GET Sample.lib)
                         (Sample.start Sample.gone) "/static/app.js")))
    = ["./static/app.js"] /\
  existsb opens (log (snd (handle Scenes.appear_after_check (do_GET Sample.lib)
                             (Sample.start Sample.gone) "/static/app.js"))) = false.
Proof.
  split; [reflexivity | split; [reflexivity | split; [reflexivity |]]].
  apply (@not_found_is_decided_at_the_check Sample.lib Scenes.appear_after_check
           (Sample.start Sample.gone) "/static/app.js"); reflexivity.
Defined.

(** ** Trailing slashes *)

(** X4. When the static path names a regular file, the same request with
    a slash appended is answered 404, Content-type: text/plain,
    b'Not Found': a file is not a directory, so nothing exists at the
    longer path. *)
Theorem slash_after_file_is_404
  (lib : library) (st : process) (p : string)
  (rd : bool) (data : bytes) :
  String.prefix "/static/" p = true ->
  stat (fs st) ("." ++ p) = inr (File rd data) ->
  fst (handle quiet (do_GET lib) st (p ++ "/")) = Returned tt /\
  response_of (log (snd (handle quiet (do_GET lib) st (p ++ "/")))) =
    Some {| status := 404%N;
            headers := [("Content-type", "text/plain")];
            body := b "Not Found" |}.
Proof.
  intros Hp Hstat.
  rewrite (handle_static lib quiet st _ (@prefix_app "/static/" p "/" Hp)). cbv zeta.
  rewrite !drift_quiet. unfold os_path_exists.
  change ("." ++ (p ++ "/"))%string with (String "." p ++ "/")%string.
  destruct (@stat_file_slash (fs st) "." p rd data Hstat) as [e He].
  rewrite He. split; reflexivity.
Qed.

Lemma slash_after_file_is_404_witness :
  String.prefix "/static/" "/static/app.js" = true /\
  stat Sample.site "./static/app.js" = inr (File true (b "console.log(1);")) /\
  fst (handle quiet (do_GET Sample.lib) (Sample.start Sample.site)
         ("/static/app.js" ++ "/")) = Returned tt /\
  response_of (log (snd (handle quiet (do_GET Sample.lib)
                           (Sample.start Sample.site) ("/static/app.js" ++ "/")))) =
    Some {| status := 404%N;
            headers := [("Content-type", "text/plain")];
            body := b "Not Found" |}.
Proof.
  split; [reflexivity | split; [reflexivity |]].
  apply (@slash_after_file_is_404 Sample.lib (Sample.start Sample.site)
           "/static/app.js" true (b "console.log(1);")); reflexivity.
Defined.

(** X5. When a path with '.' in front names a directory, the path with a
    slash appended starts with '/static/' and, with '.' in front, stays
    below [PATH_MAX] bytes, the request for the latter is sent status 200
    and Content-type: text/javascript and then raises IsADirectoryError
    with no body written.  The request /static/ itself is one, whenever
    the static directory exists. *)
Theorem slash_after_directory_raises
  (lib : library) (st : process) (q : string)
  (es : list (string * node)) :
  String.prefix "/static/" (q ++ "/") = true ->
  N.ltb (fsencode_length ("." ++ q ++ "/")) PATH_MAX = true ->
  stat (fs st) ("." ++ q) = inr (Dir es) ->
  fst (handle quiet (do_GET lib) st (q ++ "/")) = Raised IsADirectoryError /\
  sent (log (snd (handle quiet (do_GET lib) st (q ++ "/")))) = static_headers /\
  response_of (log (snd (handle quiet (do_GET lib) st (q ++ "/")))) = None.
Proof.
  intros Hp Hlen Hstat.
  rewrite (handle_static lib quiet st _ Hp). cbv zeta.
  rewrite !drift_quiet, os_open_rb. unfold os_path_exists.
  change ("." ++ (q ++ "/"))%string with (String "." q ++ "/")%string.
  rewrite (@stat_dir_slash (fs st) "." q es Hlen Hstat).
  repeat split.
Qed.

Lemma slash_after_directory_raises_witness :
  String.prefix "/static/" ("/static" ++ "/") = true /\
  N.ltb (fsencode_length ("." ++ "/static" ++ "/")) PATH_MAX = true /\
  stat Sample.bare "./static" = inr (Dir [("app.js", File true (b "console.log(1);"))]) /\
  fst (handle quiet (do_GET Sample.lib) (Sample.start Sample.bare)
         ("/static" ++ "/")) = Raised IsADirectoryError /\
  sent (log (snd (handle quiet (do_GET Sample.lib) (Sample.start Sample.bare)
                    ("/static" ++ "/")))) = static_headers /\
  response_of (log (snd (handle quiet (do_GET Sample.lib)
                           (Sample.start Sample.bare) ("/static" ++ "/")))) = None.
Proof.
  split; [reflexivity | split; [reflexivity | split; [reflexivity |]]].
  apply (@slash_after_directory_raises Sample.lib (Sample.start Sample.bare)
           "/static" [("app.js", File true (b "console.log(1);"))]); reflexivity.
Defined.

(** ** Reading next to static *)

(** X6. In a working directory that holds the static directory, every
    readable file of the working directory itself whose name has no slash
    is handed out by the static branch: the request /static/../name is
    answered 200, Content-type: text/javascript, and the bytes of that
    file. *)
Theorem sibling_of_static_is_served
  (lib : library) (st : process)
  (es es' : list (string * node)) (name : string) (data : bytes) :
  get (root (fs st)) (cwd (fs st)) = Some (Dir es) ->
  assoc "static" es = Some (Dir es') ->
  no_slash name = true ->
  special name = false ->
  assoc name es = Some (File true data) ->
  fst (handle quiet (do_GET lib) st ("/static/../" ++ name)) = Returned tt /\
  response_of (log (snd (handle quiet (do_GET lib) st ("/static/../" ++ name)))) =
    Some {| status := 200%N;
            headers := [("Content-type", "text/javascript")];
            body := data |}.
Proof.
  intros Hcwd Hstatic Hslash Hspecial Hname.
  pose proof (@stat_sibling (fs st) es es' name _ Hcwd Hstatic Hslash Hspecial Hname) as Hstat.
  rewrite (handle_static lib quiet st _ (@prefix_app "/static/" "/static/../" name eq_refl)).
  cbv zeta.
  change ("." ++ ("/static/../" ++ name))%string with ("./static/../" ++ name)%string.
  rewrite !drift_quiet, (exists_of_stat _ _ Hstat), os_open_rb, Hstat.
  split; reflexivity.
Qed.

Lemma sibling_of_static_is_served_witness :
  no_slash "secret.txt" = true /\
  special "secret.txt" = false /\
  stat Sample.site "./secret.txt" = inr (File true (b "hunter2")) /\
  fst (handle quiet (do_GET Sample.lib) (Sample.start Sample.site)
         ("/static/../" ++ "secret.txt")) = Returned tt /\
  response_of (log (snd (handle quiet (do_GET Sample.lib)
                           (Sample.start Sample.site)
                           ("/static/../" ++ "secret.txt")))) =
    Some {| status := 200%N;
            headers := [("Content-type", "text/javascript")];
            body := b "hunter2" |}.
Proof.
  split; [reflexivity | split; [reflexivity | split; [reflexivity |]]].
  eapply (@sibling_of_static_is_served Sample.lib (Sample.start Sample.site)
            _ _ "secret.txt" (b "hunter2")); reflexivity.
Defined.

(** ** Headers *)

(** X7. Under any environment, the headers the client receives are
    none when [urlparse] raises and otherwise, however the run ends,
    Server and Date, which [send_response] adds on its own, followed by
    Content-type alone for a path starting with '/static/' (the 404
    included) and by Content-type and Access-Control-Allow-Origin for any
    other path: static answers never carry Access-Control-Allow-Origin,
    and no answer carries a Content-Length. *)
Theorem header_names_by_branch
  (lib : library) (env : environment) (st : process)
  (p server date : string) :
  received_names
    (received server date (log (snd (handle env (do_GET lib) st p)))) =
  if raises lib p then []
  else if String.prefix "/static/" p
       then ["Server"; "Date"; "Content-type"]
       else ["Server"; "Date"; "Content-type"; "Access-Control-Allow-Origin"].
Proof.
  pose proof (handle_shape lib env st p) as Hshape.
  destruct Hshape
    as [Hr Hp | data Hr Hp | e Hr Hp | Hr Hp | data Hr Hp | e Hr Hp];
    now rewrite Hr, ?Hp.
Qed.

(** ** Several names for one file *)

(** X8. Below static, a doubled slash or a "." component in the request
    path changes nothing for the client: as long as the longest of the
    three paths handed to the operating system stays below [PATH_MAX]
    bytes, /static//s and /static/./s end as /static/s does and the
    handler makes the same calls on the client, for every suffix s and
    every filesystem. *)
Theorem static_aliases_answer_alike
  (lib : library) (st : process) (s : string) :
  N.ltb (fsencode_length ("./static/./" ++ s)) PATH_MAX = true ->
  let plain := handle quiet (do_GET lib) st ("/static/" ++ s) in
  let doubled := handle quiet (do_GET lib) st ("/static//" ++ s) in
  let dotted := handle quiet (do_GET lib) st ("/static/./" ++ s) in
  (fst doubled = fst plain /\ sent (log (snd doubled)) = sent (log (snd plain))) /\
  (fst dotted = fst plain /\ sent (log (snd dotted)) = sent (log (snd plain))).
Proof.
  intros Hlen. cbv zeta.
  destruct (stat_static_alias (fs st) s Hlen) as [Hd Hdot].
  rewrite (handle_static lib quiet st _ (@prefix_app "/static/" "/static/" s eq_refl)).
  rewrite (handle_static lib quiet st _ (@prefix_app "/static/" "/static//" s eq_refl)).
  rewrite (handle_static lib quiet st _ (@prefix_app "/static/" "/static/./" s eq_refl)).
  cbv zeta. rewrite !drift_quiet, !os_open_rb. unfold os_path_exists.
  change ("." ++ ("/static//" ++ s))%string with ("./static//" ++ s)%string.
  change ("." ++ ("/static/./" ++ s))%string with ("./static/./" ++ s)%string.
  change ("." ++ ("/static/" ++ s))%string with ("./static/" ++ s)%string.
  rewrite Hd, Hdot.
  destruct (stat (fs st) ("./static/" ++ s)) as [e | [[|] data | es]];
    repeat split.
Qed.

Lemma static_aliases_answer_alike_witness :
  N.ltb (fsencode_length ("./static/./" ++ "app.js")) PATH_MAX = true /\
  (fst (handle quiet (do_GET Sample.lib) (Sample.start Sample.site)
          ("/static//" ++ "app.js")) =
   fst (handle quiet (do_GET Sample.lib) (Sample.start Sample.site)
          ("/static/" ++ "app.js")) /\
   sent (log (snd (handle quiet (do_GET Sample.lib) (Sample.start Sample.site)
                     ("/static//" ++ "app.js")))) =
   sent (log (snd (handle quiet (do_GET Sample.lib) (Sample.start Sample.site)
                     ("/static/" ++ "app.js"))))) /\
  (fst (handle quiet (do_GET Sample.lib) (Sample.start Sample.site)
          ("/static/./" ++ "app.js")) =
   fst (handle quiet (do_GET Sample.lib) (Sample.start Sample.site)
          ("/static/" ++ "app.js")) /\
   sent (log (snd (handle quiet (do_GET Sample.lib) (Sample.start Sample.site)
                     ("/static/./" ++ "app.js")))) =
   sent (log (snd (handle quiet (do_GET Sample.lib) (Sample.start Sample.site)
                     ("/static/" ++ "app.js"))))).
Proof.
  split; [reflexivity|].
  apply (@static_aliases_answer_alike Sample.lib (Sample.start Sample.site)
           "app.js"); reflexivity.
Defined.

(** ** Reading anywhere *)

Lemma split_acc_name_slash (a s : string) :
  forall acc : list ascii,
    no_slash a = true ->
    split_acc acc (a ++ String "/" s) = rev_string acc a :: split_acc [] s.
Proof.
  induction a as [|c a IH]; intros acc H; cbn in *; [reflexivity|].
  apply andb_prop in H. destruct H as [Hc Ha].
  destruct (Ascii.eqb c "/"); [discriminate Hc|].
  now rewrite (IH (c :: acc) Ha).
Qed.

Lemma components_join (names : list string) :
  names <> [] ->
  forallb no_slash names = true ->
  components (join names) = names.
Proof.
  unfold components.
  induction names as [|x rest IH]; intros Hne H; [contradiction|].
  cbn [forallb] in H. apply andb_prop in H. destruct H as [Hx Hrest].
  destruct rest as [|y rest].
  - cbn [join]. now rewrite (split_acc_no_slash x [] Hx).
  - change (join (x :: y :: rest)) with (x ++ String "/" (join (y :: rest)))%string.
    rewrite (split_acc_name_slash x _ [] Hx). cbn [rev_string].
    now rewrite IH.
Qed.

Lemma components_dotdots (k : nat) (s : string) :
  components (dotdots k ++ s) = (repeat ".." k ++ components s)%list.
Proof.
  unfold components. induction k as [|k IH]; [reflexivity|].
  cbn [repeat app]. rewrite <- IH. reflexivity.
Qed.

Lemma get_dir_prefix (r : node) (l : list string) (x : string) (n : node) :
  get r (l ++ [x]) = Some n -> exists es, get r l = Some (Dir es).
Proof.
  rewrite get_app.
  destruct (get r l) as [[? ?|es]|]; try discriminate. now exists es.
Qed.

Lemma get_append (r : node) (l1 l2 : list string) :
  get r (l1 ++ l2) =
  match get r l1 with
  | Some m => get m l2
  | None => None
  end.
Proof.
  revert r. induction l1 as [|x l1 IH]; intros r; cbn; [reflexivity|].
  destruct r as [? ?|es]; [reflexivity|].
  destruct (assoc x es) as [c|]; [apply IH | reflexivity].
Qed.

(** From a directory, enough ".." lead to the root. *)
Lemma walk_up (r : node) (rest : list string) :
  forall (here : list string) (es : list (string * node)) (k : nat),
    get r (rev here) = Some (Dir es) ->
    List.length here <= k ->
    walk r here (repeat ".." k ++ rest) = walk r [] rest.
Proof.
  induction here as [|x here IH]; intros es k Hdir Hk.
  - clear Hk. induction k as [|k IHk]; [reflexivity|].
    cbn [repeat app]. now rewrite (walk_dotdot _ _ Hdir).
  - destruct k as [|k]; [cbn in Hk; lia|].
    cbn [repeat app]. rewrite (walk_dotdot _ _ Hdir). cbn [tl].
    cbn [rev] in Hdir. destruct (get_dir_prefix _ _ _ Hdir) as [es0 H0].
    apply (IH es0 k H0). cbn in Hk. lia.
Qed.

(** Plain names that lead to an entry are walked one by one. *)
Lemma walk_down (r : node) (n : node) :
  forall (loc here : list string),
    forallb plain loc = true ->
    get r (rev here ++ loc) = Some n ->
    walk r here loc = inr (rev loc ++ here)%list.
Proof.
  induction loc as [|x loc IH]; intros here Hplain Hget; [reflexivity|].
  cbn [forallb] in Hplain. apply andb_prop in Hplain.
  destruct Hplain as [Hx Hloc].
  unfold plain in Hx. apply andb_prop in Hx. destruct Hx as [_ Hx].
  apply negb_true_iff in Hx.
  pose proof Hget as Hsplit. rewrite get_append in Hsplit.
  destruct (get r (rev here)) as [[? ?|es]|] eqn:Hhere; try discriminate.
  cbn [get] in Hsplit.
  destruct (assoc x es) as [c|] eqn:Hassoc; [|discriminate].
  rewrite (walk_name _ _ Hhere x _ Hx Hassoc).
  rewrite (IH (x :: here) Hloc).
  - cbn [rev]. now rewrite <- app_assoc.
  - cbn [rev]. now rewrite <- app_assoc.
Qed.

(** From the static directory, the path that climbs past the working
    directory and then spells a location leads to that location. *)
Lemma stat_climb (fs0 : filesystem) (es es' : list (string * node))
  (loc : list string) (n : node) :
  get (root fs0) (cwd fs0) = Some (Dir es) ->
  assoc "static" es = Some (Dir es') ->
  loc <> [] ->
  forallb plain loc = true ->
  N.ltb (fsencode_length
           ("./static/" ++ dotdots (S (List.length (cwd fs0))) ++ join loc))
        PATH_MAX = true ->
  get (root fs0) loc = Some n ->
  stat fs0 ("./static/" ++ dotdots (S (List.length (cwd fs0))) ++ join loc) = inr n.
Proof.
  intros Hcwd Hstatic Hne Hplain Hlen Hget.
  assert (Hhere : get (root fs0) (rev (rev (cwd fs0))) = Some (Dir es))
    by now rewrite rev_involutive.
  assert (Hin : get (root fs0) (rev ("static" :: rev (cwd fs0))) = Some (Dir es')).
  { cbn [rev]. now rewrite rev_involutive, get_app, Hcwd. }
  assert (Hslash : forallb no_slash loc = true).
  { clear - Hplain. induction loc as [|x loc IH]; [reflexivity|].
    cbn [forallb] in *. apply andb_prop in Hplain. destruct Hplain as [Hx Hl].
    unfold plain in Hx. apply andb_prop in Hx. destruct Hx as [Hx _].
    now rewrite Hx, IH. }
  assert (Hc : components ("./static/" ++ dotdots (S (List.length (cwd fs0))) ++ join loc)
               = "." :: "static" :: (repeat ".." (S (List.length (cwd fs0))) ++ loc)%list).
  { rewrite <- (components_join Hne Hslash) at 2.
    rewrite <- components_dotdots. reflexivity. }
  unfold stat, locate. rewrite Hc, (leb_of_ltb _ _ Hlen).
  change (String.eqb ("./static/" ++ dotdots (S (List.length (cwd fs0))) ++ join loc) "")
    with false.
  change (String.prefix "/" ("./static/" ++ dotdots (S (List.length (cwd fs0))) ++ join loc))
    with false.
  cbv iota.
  rewrite (walk_dot _ _ Hhere).
  rewrite (walk_name _ _ Hhere "static" _ eq_refl Hstatic).
  rewrite (walk_up (root fs0) loc ("static" :: rev (cwd fs0)) Hin)
    by (cbn [List.length]; rewrite length_rev; lia).
  rewrite (walk_down (root fs0) (n:=n) loc [] Hplain Hget).
  now rewrite app_nil_r, rev_involutive, Hget.
Qed.

(** X9. In a working directory that holds the static directory, a file
    the process may read, wherever it lies in the filesystem, is handed
    out by the static branch when the names that lead to it can be
    spelled in a request (characters below 256, no slash) and the path
    stays below [PATH_MAX] bytes: the request made of '/static/', one
    '../' more than the working directory is deep, and those names, is
    answered 200, Content-type: text/javascript, and the bytes of that
    file. *)
Theorem any_readable_file_is_served
  (lib : library) (st : process)
  (es es' : list (string * node)) (loc : list string) (data : bytes) :
  get (root (fs st)) (cwd (fs st)) = Some (Dir es) ->
  assoc "static" es = Some (Dir es') ->
  forallb plain loc = true ->
  N.ltb (fsencode_length
           ("./static/" ++ dotdots (S (List.length (cwd (fs st)))) ++ join loc))
        PATH_MAX = true ->
  get (root (fs st)) loc = Some (File true data) ->
  let target :=
    ("/static/" ++ dotdots (S (List.length (cwd (fs st)))) ++ join loc)%string in
  String.prefix "/static/" target = true /\
  fst (handle quiet (do_GET lib) st target) = Returned tt /\
  response_of (log (snd (handle quiet (do_GET lib) st target))) =
    Some {| status := 200%N;
            headers := [("Content-type", "text/javascript")];
            body := data |}.
Proof.
  intros Hcwd Hstatic Hplain Hlen Hget. cbv zeta.
  assert (Hne : loc <> []).
  { intros ->. cbn in Hget. injection Hget as Hroot.
    rewrite Hroot in Hcwd. now destruct (cwd (fs st)). }
  pose proof (@stat_climb (fs st) es es' loc _ Hcwd Hstatic Hne Hplain Hlen Hget)
    as Hstat.
  assert (Hp : String.prefix "/static/"
                 ("/static/" ++ dotdots (S (List.length (cwd (fs st)))) ++ join loc) = true)
    by (apply (@prefix_app "/static/" "/static/"); reflexivity).
  split; [exact Hp|].
  rewrite (handle_static lib quiet st _ Hp). cbv zeta.
  change ("." ++ ("/static/" ++ dotdots (S (List.length (cwd (fs st)))) ++ join loc))%string
    with ("./static/" ++ dotdots (S (List.length (cwd (fs st)))) ++ join loc)%string.
  rewrite !drift_quiet, (exists_of_stat _ _ Hstat), os_open_rb, Hstat.
  split; reflexivity.
Qed.

Lemma any_readable_file_is_served_witness :
  forallb plain ["etc"; "passwd"] = true /\
  N.ltb (fsencode_length "./static/../../../etc/passwd") PATH_MAX = true /\
  get (root Host.host) ["etc"; "passwd"] = Some (File true (b "root:x:0:0")) /\
  ("/static/" ++ dotdots (S (List.length (cwd Host.host))) ++ join ["etc"; "passwd"])%string
    = "/static/../../../etc/passwd" /\
  String.prefix "/static/" "/static/../../../etc/passwd" = true /\
  fst (handle quiet (do_GET Sample.lib) (Sample.start Host.host)
         "/static/../../../etc/passwd") = Returned tt /\
  response_of (log (snd (handle quiet (do_GET Sample.lib)
                           (Sample.start Host.host)
                           "/static/../../../etc/passwd"))) =
    Some {| status := 200%N;
            headers := [("Content-type", "text/javascript")];
            body := b "root:x:0:0" |}.
Proof.
  split; [reflexivity | split; [reflexivity | split; [reflexivity | split; [reflexivity |]]]].
  eapply (@any_readable_file_is_served Sample.lib (Sample.start Host.host)
            _ _ ["etc"; "passwd"] (b "root:x:0:0")); reflexivity.
Defined.
